(** * flask-app: the report cache and the request handler of [app.py]

    The development embeds [src/app.py] shallowly.  Python exceptions are an
    explicit outcome, the module globals [last_result] and [last_updated] are
    fields of an explicit state, and the calls that leave the process (the
    crew's [kickoff], [str] of its output, the clock, [markdown2.markdown],
    the DuckDuckGo search) are the fields of one record of externals. *)

From Stdlib Require Import String List Bool Arith Lia.
From stdpp Require Import list strings.
Import ListNotations.

Local Open Scope string_scope.

(** ** Python exceptions and the state-and-exception monad *)

Module Py.

(** A raised Python object: its class name, whether it is an instance of
    [Exception] (what [except Exception] catches; [KeyboardInterrupt] and
    [SystemExit] are not), and [str(e)]. *)
Record exn : Type := Exn {
  exn_class : string;
  exn_is_Exception : bool;
  exn_str : string
}.

(** How a call ends. *)
Inductive outcome (A : Type) : Type :=
| Return (a : A)
| Raise (e : exn).
Arguments Return {A} a.
Arguments Raise {A} e.

(** Computations over a state [S]; a raise keeps the state reached so far. *)
Definition M (S A : Type) : Type := S -> outcome A * S.

Definition ret {S A} (a : A) : M S A := fun s => (Return a, s).

Definition raise {S A} (e : exn) : M S A := fun s => (Raise e, s).

Definition bind {S A B} (m : M S A) (k : A -> M S B) : M S B :=
  fun s =>
    match m s with
    | (Return a, s') => k a s'
    | (Raise e, s') => (Raise e, s')
    end.

Definition get {S} : M S S := fun s => (Return s, s).

Definition modify {S} (f : S -> S) : M S unit := fun s => (Return tt, f s).

(** [try: body  except Exception as e: handler(e)]. *)
Definition try_except_Exception {S A} (body : M S A) (handler : exn -> M S A)
  : M S A :=
  fun s =>
    match body s with
    | (Return a, s') => (Return a, s')
    | (Raise e, s') =>
        if exn_is_Exception e then handler e s' else (Raise e, s')
    end.

End Py.

Import Py.

Notation "x <- m ;; k" := (bind m (fun x => k))
  (at level 100, m at next level, right associativity).
Notation "m ;;; k" := (bind m (fun _ => k))
  (at level 100, right associativity).

(** ** The calls that leave the process *)

Record Externals : Type := {
  (** everything outside the process: the network, the model, the clock *)
  World : Type;
  (** what [investment_crew.kickoff()] returns *)
  CrewOutput : Type;
  (** [investment_crew.kickoff()] *)
  crew_kickoff : World -> outcome CrewOutput * World;
  (** [str(result)] *)
  str_CrewOutput : CrewOutput -> string;
  (** [datetime.now().strftime("%Y-%m-%d %H:%M:%S")] *)
  now_strftime : World -> string;
  (** [markdown2.markdown(text)] on a [str] *)
  markdown_of_str : string -> string;
  (** [DuckDuckGoSearchRun().invoke(query)] *)
  DuckDuckGoSearchRun_invoke : string -> World -> outcome string * World
}.

(** ** The search tool (lines 24-31) *)

Module MyCustomDuckDuckGoTool.

Definition name : string := "DuckDuckGo Search Tool".

Definition description : string := "Search the web for a given query.".

(** [_run]: the response of the search is returned as it is; nothing is
    caught, so what the search raises leaves [_run] as it is. *)
Definition _run (E : Externals) (query : string) : M (World E) string :=
  response <- DuckDuckGoSearchRun_invoke E query ;;
  ret response.

End MyCustomDuckDuckGoTool.

(** ** The web application: [generate_recommendations] and [index] *)

Module App.

Inductive http_method : Type := GET | POST | HEAD.

(** [request.method] and the keys of [request.form]. *)
Record request : Type := Request {
  method : http_method;
  form : list string
}.

(** What [index] hands to [render_template_string]: the error template with
    [error], or the report template with [result_html] and [last_updated]
    ([None] while the cache has no timestamp). *)
Inductive response : Type :=
| ErrorPage (error : string)
| ReportPage (result_html : string) (last_updated : option string).

(** [markdown2.markdown(None)] raises. *)
Definition markdown_TypeError : exn :=
  Exn "TypeError" true "decoding to str: need a bytes-like object, NoneType found".

Definition refresh_in_form (req : request) : bool :=
  existsb (String.eqb "refresh") (form req).

Definition is_POST (m : http_method) : bool :=
  match m with POST => true | _ => false end.

Section WithExternals.

Variable E : Externals.

(** The module globals, the world, and a count of the [kickoff] calls made
    so far (ghost: the program never reads it). *)
Record state : Type := State {
  last_result : option string;
  last_updated : option string;
  world : World E;
  kickoff_calls : nat
}.

Definition set_last_result (v : option string) (s : state) : state :=
  {| last_result := v; last_updated := last_updated s;
     world := world s; kickoff_calls := kickoff_calls s |}.

Definition set_last_updated (v : option string) (s : state) : state :=
  {| last_result := last_result s; last_updated := v;
     world := world s; kickoff_calls := kickoff_calls s |}.

(** The globals as the module body leaves them (lines 98-99). *)
Definition initial (w : World E) : state :=
  {| last_result := None; last_updated := None;
     world := w; kickoff_calls := 0 |}.

(** The cache: the pair of globals. *)
Definition cache (s : state) : option string * option string :=
  (last_result s, last_updated s).

Definition investment_crew_kickoff : M state (CrewOutput E) :=
  fun s =>
    let (o, w') := crew_kickoff E (world s) in
    (o, {| last_result := last_result s; last_updated := last_updated s;
           world := w'; kickoff_calls := S (kickoff_calls s) |}).

Definition datetime_now_strftime : M state string :=
  fun s => (Return (now_strftime E (world s)), s).

(** Lines 101-109. *)
Definition generate_recommendations : M state (option string) :=
  try_except_Exception
    (result <- investment_crew_kickoff ;;
     modify (set_last_result (Some (str_CrewOutput E result))) ;;;
     t <- datetime_now_strftime ;;
     modify (set_last_updated (Some t)) ;;;
     s <- get ;;
     ret (last_result s))
    (fun e => raise e).

Definition markdown2_markdown (text : option string) : M state string :=
  match text with
  | Some t => ret (markdown_of_str E t)
  | None => raise markdown_TypeError
  end.

(** Lines 115-141: the part of [index] that chooses [result_str], or returns
    the error page from inside the [except] clause. *)
Definition index_result_str (req : request)
  : M state (response + option string) :=
  if is_POST (method req) && refresh_in_form req then
    try_except_Exception
      (result_str <- generate_recommendations ;;
       ret (inr result_str))
      (fun e => ret (inl (ErrorPage (exn_str e))))
  else
    s <- get ;;
    match last_result s with
    | None =>
        result_str <- generate_recommendations ;;
        ret (inr result_str)
    | Some _ =>
        s' <- get ;;
        ret (inr (last_result s'))
    end.

(** Lines 112-200. *)
Definition index (req : request) : M state response :=
  r <- index_result_str req ;;
  match r with
  | inl page => ret page
  | inr result_str =>
      result_html <- markdown2_markdown result_str ;;
      s <- get ;;
      ret (ReportPage result_html (last_updated s))
  end.

End WithExternals.

Arguments State {E} _ _ _ _.
Arguments last_result {E} s.
Arguments last_updated {E} s.
Arguments world {E} s.
Arguments kickoff_calls {E} s.
Arguments cache {E} s.
Arguments initial {E} w.

End App.

(** ** Request threads: [index] statement by statement

    The development server handles each request in a thread of its own, and
    the source takes no lock, so the handlers interleave at statement
    boundaries.  A thread is a program point of [index] (with
    [generate_recommendations] inlined); a step runs one statement of one
    thread on the shared state.  A [kickoff] call is in flight from the step
    that calls it to the step at which it returns. *)

Module Threads.

Import App.

Section WithExternals.

Variable E : Externals.

Inductive pc : Type :=
| AtStart (req : request)              (* line 115 is next *)
| InKickoff (in_try : bool)            (* line 104: kickoff() called, not back;
                                          in_try: called from line 117 *)
| AtStoreResult (result : CrewOutput E) (* line 105 is next *)
| AtStoreUpdated                       (* line 106 is next *)
| AtReturn                             (* line 107 is next *)
| AtReadCached                         (* line 141 is next *)
| AtMarkdown (result_str : option string) (* line 144 is next *)
| AtRender (result_html : string)      (* line 147 is next *)
| Finished (o : outcome response).

Record config : Type := Config {
  shared : state E;
  threads : list pc
}.

(** What leaves [index] when [kickoff] raises [e]: [generate_recommendations]
    re-raises it, and only the [try] of line 116 turns it into a page. *)
Definition kickoff_raised (in_try : bool) (e : exn) : outcome response :=
  if in_try && exn_is_Exception e
  then Return (ErrorPage (exn_str e))
  else Raise e.

(** One statement of a thread at [p] on the shared state [s]. *)
Definition step_pc (p : pc) (s : state E) : option (pc * state E) :=
  match p with
  | AtStart req =>
      if is_POST (method req) && refresh_in_form req then
        Some (InKickoff true, s)
      else
        match last_result s with
        | None => Some (InKickoff false, s)
        | Some _ => Some (AtReadCached, s)
        end
  | InKickoff in_try =>
      match investment_crew_kickoff E s with
      | (Return result, s') => Some (AtStoreResult result, s')
      | (Raise e, s') => Some (Finished (kickoff_raised in_try e), s')
      end
  | AtStoreResult result =>
      Some (AtStoreUpdated,
            set_last_result E (Some (str_CrewOutput E result)) s)
  | AtStoreUpdated =>
      Some (AtReturn,
            set_last_updated E (Some (now_strftime E (world s))) s)
  | AtReturn => Some (AtMarkdown (last_result s), s)
  | AtReadCached => Some (AtMarkdown (last_result s), s)
  | AtMarkdown (Some t) => Some (AtRender (markdown_of_str E t), s)
  | AtMarkdown None => Some (Finished (Raise markdown_TypeError), s)
  | AtRender result_html =>
      Some (Finished (Return (ReportPage result_html (last_updated s))), s)
  | Finished _ => None
  end.

(** Thread [i] runs its next statement. *)
Definition step (i : nat) (c : config) : option config :=
  match threads c !! i with
  | Some p =>
      match step_pc p (shared c) with
      | Some (p', s') => Some {| shared := s'; threads := <[i := p']> (threads c) |}
      | None => None
      end
  | None => None
  end.

(** A schedule names the thread to run at each step; naming a finished or
    absent thread leaves the configuration as it is. *)
Definition step_or_stay (c : config) (i : nat) : config :=
  match step i c with
  | Some c' => c'
  | None => c
  end.

Definition run (sched : list nat) (c : config) : config :=
  fold_left step_or_stay sched c.

Definition is_InKickoff (p : pc) : bool :=
  match p with InKickoff _ => true | _ => false end.

Definition is_AtStoreUpdated (p : pc) : bool :=
  match p with AtStoreUpdated => true | _ => false end.

(** A thread that has not started or has answered its request. *)
Definition idle (p : pc) : bool :=
  match p with AtStart _ | Finished _ => true | _ => false end.

Definition count (f : pc -> bool) (c : config) : nat :=
  length (List.filter f (threads c)).

(** The pipeline executions in flight. *)
Definition in_flight (c : config) : nat := count is_InKickoff c.

(** The requests being handled. *)
Definition active (c : config) : nat := count (fun p => negb (idle p)) c.

(** The threads between the two assignments of lines 105 and 106. *)
Definition between_assignments (c : config) : nat := count is_AtStoreUpdated c.

(** The requests are handled one at a time: a thread is run only while no
    other thread is in the middle of its request. *)
Fixpoint serial (sched : list nat) (c : config) : bool :=
  match sched with
  | [] => true
  | i :: rest =>
      (Nat.eqb (active c) 0
       || match threads c !! i with
          | Some p => negb (idle p)
          | None => false
          end)
      && serial rest (step_or_stay c i)
  end.

Definition is_AtStart (p : pc) : bool :=
  match p with AtStart _ => true | _ => false end.

(** Executions finished, executions in flight and requests not begun. *)
Definition budget (c : config) : nat :=
  kickoff_calls (shared c) + in_flight c + count is_AtStart c.

(** The cache invariant of the interleaved handlers: a thread between the
    two assignments has set [last_result]; [last_updated] is set only once
    [last_result] is; and [last_result] is set without [last_updated] only
    while some thread is between the two assignments. *)
Definition cache_inv (c : config) : Prop :=
  (1 <= between_assignments c -> last_result (shared c) <> None)
  /\ (last_updated (shared c) <> None -> last_result (shared c) <> None)
  /\ (last_result (shared c) <> None ->
      last_updated (shared c) = None ->
      1 <= between_assignments c).

(** The process after start-up, with one thread per request received. *)
Definition init_config (w : World E) (reqs : list request) : config :=
  {| shared := initial w; threads := map AtStart reqs |}.

(** The answer thread [i] has given, if it has finished. *)
Definition answer (c : config) (i : nat) : option (outcome response) :=
  match threads c !! i with
  | Some (Finished o) => Some o
  | _ => None
  end.

End WithExternals.

Arguments Config {E} _ _.
Arguments shared {E} c.
Arguments threads {E} c.
Arguments AtStart {E} req.
Arguments InKickoff {E} in_try.
Arguments AtStoreUpdated {E}.
Arguments AtReturn {E}.
Arguments AtReadCached {E}.
Arguments AtMarkdown {E} result_str.
Arguments AtRender {E} result_html.
Arguments Finished {E} o.
Arguments is_InKickoff {E} p.
Arguments is_AtStoreUpdated {E} p.
Arguments is_AtStart {E} p.
Arguments idle {E} p.
Arguments count {E} f c.
Arguments in_flight {E} c.
Arguments active {E} c.
Arguments between_assignments {E} c.
Arguments budget {E} c.
Arguments cache_inv {E} c.
Arguments init_config {E} w reqs.
Arguments answer {E} c i.

End Threads.

(** ** The crew: agents, tasks and their sequential execution

    [app.py] declares the agents, the tasks and the crew (lines 33-91) and
    calls [investment_crew.kickoff()]; what a kickoff does is the crewai
    library's code, which the repository does not contain.  The declarations
    below are the source's.  The executor, the start-up validation and the
    agent's reasoning loop are modelled from the specification, and each
    such definition says so. *)

Module Crew.

(** Modelled from the spec: the error taxonomy of section 7, missing from
    [app.py], which defines no error class. *)
Inductive error : Type :=
| ToolError (cause : string)
| ModelError (cause : string)
| UnknownToolError (toolName : string)
| ReasoningLimitExceeded
| DependencyOrderError.

(** Modelled from the spec: the tool contract of sections 3 and 4.1, [run]
    returning the text or failing with the cause of a [ToolError]. *)
Record Tool : Type := {
  tool_name : string;
  tool_description : string;
  tool_run : string -> string + string
}.

(** Modelled from the spec: the response of the language model, section
    4.2. *)
Inductive Response : Type :=
| FinalAnswer (text : string)
| ToolCall (toolName : string) (query : string).

(** Modelled from the spec: [generate(prompt, availableTools)] of section
    4.2, the tools given by name and description (section 6); [inl cause]
    is a [ModelError]. *)
Definition LanguageModelClient : Type :=
  string -> list (string * string) -> string + Response.

(** [Agent(role=, goal=, backstory=, verbose=, allow_delegation=, llm=,
    tools=)], lines 34-62. *)
Record Agent : Type := {
  role : string;
  goal : string;
  backstory : string;
  verbose : bool;
  allow_delegation : bool;
  llm : LanguageModelClient;
  tools : list Tool
}.

(** [Task(description=, expected_output=, agent=, context=)], lines 65-83.
    A task of [context] is named by its position in the crew's [tasks]. *)
Record Task : Type := {
  description : string;
  expected_output : string;
  agent : Agent;
  context : list nat
}.

(** *** The declarations of [app.py] *)

Section Declarations.

(** The model behind [ChatOpenAI(...)] and the search behind
    [MyCustomDuckDuckGoTool()._run]. *)
Variable llm_client : LanguageModelClient.
Variable search : string -> string + string.

Definition MyCustomDuckDuckGoTool_instance : Tool := {|
  tool_name := MyCustomDuckDuckGoTool.name;
  tool_description := MyCustomDuckDuckGoTool.description;
  tool_run := search
|}.

Definition market_researcher : Agent := {|
  role := "Stock Market Researcher";
  goal := "Identify the top performing stocks and sectors with strong growth potential for the current year";
  backstory := "You are a financial analyst with expertise in identifying high-growth stocks across different sectors.";
  verbose := true;
  allow_delegation := false;
  llm := llm_client;
  tools := [MyCustomDuckDuckGoTool_instance]
|}.

Definition stock_analyst : Agent := {|
  role := "Stock Analyst";
  goal := "Analyze and select the top 10 stocks to invest in for the current year";
  backstory := "You are a seasoned stock analyst with 10+ years of experience in fundamental and technical analysis.";
  verbose := true;
  allow_delegation := false;
  llm := llm_client;
  tools := [MyCustomDuckDuckGoTool_instance]
|}.

Definition investment_advisor : Agent := {|
  role := "Investment Advisor";
  goal := "Create a compelling investment recommendation report for the top 10 stocks";
  backstory := "You are a professional investment advisor who helps clients make informed decisions.";
  verbose := true;
  allow_delegation := false;
  llm := llm_client;
  tools := [MyCustomDuckDuckGoTool_instance]
|}.

Definition market_research_task : Task := {|
  description := "Research current stock market trends and identify sectors with strong growth potential for the current year.";
  expected_output := "A list of 5-7 promising sectors with explanations of why they have growth potential this year";
  agent := market_researcher;
  context := []
|}.

Definition stock_selection_task : Task := {|
  description := "Based on the sector research, identify the top 10 stocks to invest in this year.";
  expected_output := "A list of 10 stocks with their basic information and investment rationale";
  agent := stock_analyst;
  context := [0]
|}.

Definition investment_report_task : Task := {|
  description := "Create a comprehensive investment report presenting the top 10 stocks to invest in this year.";
  expected_output := "A well-formatted investment report in markdown with detailed analysis of each recommended stock";
  agent := investment_advisor;
  context := [0; 1]
|}.

(** The [tasks] of [investment_crew], in the order of line 88. *)
Definition investment_crew : list Task :=
  [market_research_task; stock_selection_task; investment_report_task].

End Declarations.

(** *** The agent's reasoning loop *)

Section Executor.

(** The configured maximum of tool-call rounds, and the text of a section
    marker, which the specification leaves open. *)
Variable max_rounds : nat.
Variable section_marker : string -> string.

(** Modelled from the spec: the states of section 4.3.  [app.py] has no
    reasoning loop; it runs inside [kickoff]. *)
Inductive phase : Type :=
| AWAITING_MODEL
| EXECUTING_TOOL (tool : Tool) (query : string)
| DONE (text : string)
| FAILED (e : error).

(** The running transcript and the tool-call rounds made so far. *)
Record loop_state : Type := {
  at_phase : phase;
  transcript : string;
  rounds : nat
}.

(** Modelled from the spec: the composed prompt of section 4.3, role, goal,
    backstory, task description, expected output and upstream context in
    that order, each under its marker. *)
Definition compose_prompt (a : Agent) (t : Task) (context_text : string) : string :=
  section_marker "role" ++ role a
  ++ section_marker "goal" ++ goal a
  ++ section_marker "backstory" ++ backstory a
  ++ section_marker "description" ++ description t
  ++ section_marker "expected_output" ++ expected_output t
  ++ section_marker "context" ++ context_text.

Definition find_tool (a : Agent) (toolName : string) : option Tool :=
  List.find (fun tool => String.eqb (tool_name tool) toolName) (tools a).

Definition tool_descriptors (a : Agent) : list (string * string) :=
  map (fun tool => (tool_name tool, tool_description tool)) (tools a).

(** Modelled from the spec: one transition of the state machine of section
    4.3.  Awaiting the model: a final answer ends the loop, a model failure
    is a [ModelError], a tool call beyond [max_rounds] is
    [ReasoningLimitExceeded], a tool the agent does not hold is
    [UnknownToolError].  Executing the tool: its text is appended to the
    transcript and a round is counted, its failure is a [ToolError]. *)
Definition loop_step (a : Agent) (st : loop_state) : loop_state :=
  match at_phase st with
  | AWAITING_MODEL =>
      match llm a (transcript st) (tool_descriptors a) with
      | inl cause =>
          {| at_phase := FAILED (ModelError cause);
             transcript := transcript st; rounds := rounds st |}
      | inr (FinalAnswer text) =>
          {| at_phase := DONE text;
             transcript := transcript st; rounds := rounds st |}
      | inr (ToolCall toolName query) =>
          if Nat.leb max_rounds (rounds st) then
            {| at_phase := FAILED ReasoningLimitExceeded;
               transcript := transcript st; rounds := rounds st |}
          else
            match find_tool a toolName with
            | None =>
                {| at_phase := FAILED (UnknownToolError toolName);
                   transcript := transcript st; rounds := rounds st |}
            | Some tool =>
                {| at_phase := EXECUTING_TOOL tool query;
                   transcript := transcript st; rounds := rounds st |}
            end
      end
  | EXECUTING_TOOL tool query =>
      match tool_run tool query with
      | inl cause =>
          {| at_phase := FAILED (ToolError cause);
             transcript := transcript st; rounds := S (rounds st) |}
      | inr text =>
          {| at_phase := AWAITING_MODEL;
             transcript := transcript st ++ text; rounds := S (rounds st) |}
      end
  | DONE _ | FAILED _ => st
  end.

Definition terminal (st : loop_state) : bool :=
  match at_phase st with
  | DONE _ | FAILED _ => true
  | _ => false
  end.

Fixpoint loop_steps (n : nat) (a : Agent) (st : loop_state) : loop_state :=
  match n with
  | 0 => st
  | S n' => loop_steps n' a (loop_step a st)
  end.

Definition loop_start (prompt : string) : loop_state :=
  {| at_phase := AWAITING_MODEL; transcript := prompt; rounds := 0 |}.

(** The transitions a loop of at most [max_rounds] rounds can take: two per
    round, and the one that ends it. *)
Definition loop_bound : nat := 2 * max_rounds + 1.

(** Modelled from the spec: [Agent.execute], the loop run from the composed
    prompt to its end. *)
Definition Agent_execute (a : Agent) (t : Task) (context_text : string)
  : loop_state :=
  loop_steps loop_bound a (loop_start (compose_prompt a t context_text)).

(** The text or the error the loop ended with; [None] while it runs. *)
Definition loop_result (st : loop_state) : option (error + string) :=
  match at_phase st with
  | DONE text => Some (inr text)
  | FAILED e => Some (inl e)
  | _ => None
  end.

(** The transitions a loop in state [st] can still take. *)
Definition loop_measure (st : loop_state) : nat :=
  match at_phase st with
  | AWAITING_MODEL => 2 * (max_rounds - rounds st) + 1
  | EXECUTING_TOOL _ _ => 2 * (max_rounds - S (rounds st)) + 2
  | DONE _ | FAILED _ => 0
  end.

(** A tool is being executed only below the limit. *)
Definition loop_ok (st : loop_state) : Prop :=
  match at_phase st with
  | EXECUTING_TOOL _ _ => rounds st < max_rounds
  | _ => rounds st <= max_rounds
  end.

(** A model that asks for a tool at every turn, each time a tool the agent
    holds and that answers. *)
Definition always_tool_call (a : Agent) : Prop :=
  forall prompt,
  exists toolName query tool text,
    llm a prompt (tool_descriptors a) = inr (ToolCall toolName query)
    /\ find_tool a toolName = Some tool
    /\ tool_run tool query = inr text.

(** *** The pipeline *)

(** Modelled from the spec: step 1 of section 4.4, the recorded output of
    every task of [context], in the order listed, each after the
    description of the task it comes from. *)
Definition context_text_of (tasks : list Task) (outputs : list string)
    (t : Task) : string :=
  String.concat ""
    (map (fun d =>
            match tasks !! d, outputs !! d with
            | Some td, Some output => description td ++ output
            | _, _ => ""
            end)
         (context t)).



(** A run: the outputs recorded, in task order; the agent invocations made,
    each with the position of its task and the context it received; and
    the failure that ended the run, with the position of the failing
    task. *)
Record run_state : Type := {
  outputs : list string;
  invocations : list (nat * string);
  failure : option (nat * error)
}.

(** Modelled from the spec: steps 1 to 4 of section 4.4 for the tasks
    [todo] that remain, [outputs] holding one output per task done. *)
Fixpoint run_tasks (tasks todo : list Task) (st : run_state) : run_state :=
  match todo with
  | [] => st
  | t :: rest =>
      let i := length (outputs st) in
      let context_text := context_text_of tasks (outputs st) t in
      let invoked := (invocations st ++ [(i, context_text)])%list in
      match loop_result (Agent_execute (agent t) t context_text) with
      | Some (inr text) =>
          run_tasks tasks rest
            {| outputs := (outputs st ++ [text])%list;
               invocations := invoked;
               failure := None |}
      | Some (inl e) =>
          {| outputs := outputs st; invocations := invoked;
             failure := Some (i, e) |}
      | None =>
          (* not reached: the loop has ended within [loop_bound] *)
          {| outputs := outputs st; invocations := invoked;
             failure := Some (i, ReasoningLimitExceeded) |}
      end
  end.


Definition run_start : run_state :=
  {| outputs := []; invocations := []; failure := None |}.

(** Modelled from the spec: the check of section 4.4 made when the pipeline
    is configured: every task of a [context] stands earlier in the
    sequence. *)
Fixpoint dependencies_earlier (i : nat) (tasks : list Task) : bool :=
  match tasks with
  | [] => true
  | t :: rest =>
      forallb (fun d => Nat.ltb d i) (context t) && dependencies_earlier (S i) rest
  end.

Definition validate (tasks : list Task) : option error :=
  if dependencies_earlier 0 tasks then None else Some DependencyOrderError.

(** Modelled from the spec: [Pipeline.run] behind the start-up validation;
    a rejected configuration executes nothing. *)
Definition Pipeline_run (tasks : list Task) : error + run_state :=
  match validate tasks with
  | Some e => inl e
  | None => inr (run_tasks tasks tasks run_start)
  end.

(** The agent invocations a start-up and run has made. *)
Definition invocations_made (r : error + run_state) : list (nat * string) :=
  match r with
  | inl _ => []
  | inr st => invocations st
  end.

(** Modelled from the spec: step 5 of section 4.4, the text of the result
    of a run that completed every task. *)
Definition PipelineResult_text (st : run_state) : option string :=
  match failure st with
  | None => last (outputs st)
  | Some _ => None
  end.

End Executor.

End Crew.

(** ** Concrete externals, for running the definitions *)

Module Stub.

Definition boom : exn := Exn "RuntimeError" true "model timed out".

Definition interrupt : exn := Exn "KeyboardInterrupt" false "".

Definition search_down : exn :=
  Exn "DuckDuckGoSearchException" true "https://duckduckgo.com timed out".

(** The world is a counter of the crew runs made so far.  Runs 0 and 1
    succeed, run 2 raises an [Exception], every later one is interrupted;
    the clock shows the run count; the search answers every query but
    ["down"]. *)
Definition externals : Externals := {|
  World := nat;
  CrewOutput := string;
  crew_kickoff := fun w =>
    (match w with
     | 0 => Return "# Report A"
     | 1 => Return "# Report B"
     | 2 => Raise boom
     | _ => Raise interrupt
     end, S w);
  str_CrewOutput := fun r => r;
  now_strftime := fun w =>
    match w with
    | 0 => "2025-01-01 00:00:00"
    | 1 => "2025-01-01 09:00:00"
    | _ => "2025-01-01 10:00:00"
    end;
  markdown_of_str := fun t => "<html>" ++ t ++ "</html>";
  DuckDuckGoSearchRun_invoke := fun q w =>
    if String.eqb q "down" then (Raise search_down, w)
    else (Return ("results for " ++ q), w)
|}.

(** A model that answers at once with the prompt it was given, one that
    asks for the search tool at every turn, and one that asks for it once
    and answers with what it found. *)
Definition echo_llm : Crew.LanguageModelClient :=
  fun prompt _ => inr (Crew.FinalAnswer prompt).

Definition tool_loop_llm : Crew.LanguageModelClient :=
  fun _ _ => inr (Crew.ToolCall "DuckDuckGo Search Tool" "stocks").

Definition search_once_llm : Crew.LanguageModelClient :=
  fun prompt _ =>
    match String.index 0 "RESULT:X" prompt with
    | Some _ => inr (Crew.FinalAnswer "RESULT:X")
    | None => inr (Crew.ToolCall "DuckDuckGo Search Tool" "X")
    end.

Definition search : string -> string + string :=
  fun query => inr ("RESULT:" ++ query).

Definition section_marker (title : string) : string := "[" ++ title ++ "]".

(** Two tasks, the first depending on the second. *)
Definition misordered : list Crew.Task :=
  [ {| Crew.description := "Write the report.";
       Crew.expected_output := "A report";
       Crew.agent := Crew.investment_advisor echo_llm search;
       Crew.context := [1] |};
    {| Crew.description := "Do the research.";
       Crew.expected_output := "A list";
       Crew.agent := Crew.market_researcher echo_llm search;
       Crew.context := [] |} ].

Definition get_ : App.request := App.Request App.GET [].

Definition post_refresh : App.request := App.Request App.POST ["refresh"].

(** The process just started, in a world of [w] earlier crew runs. *)
Definition fresh (w : nat) : App.state externals := @App.initial externals w.

(** The process just started, with the requests [reqs] received. *)
Definition started (reqs : list App.request) : Threads.config externals :=
  @Threads.init_config externals 0 reqs.

(** A cache filled by an earlier successful run. *)
Definition filled (w : nat) : App.state externals :=
  @App.State externals (Some "# Report A") (Some "2025-01-01 09:00:00") w 1.

End Stub.

(** ** Requests handled one after another *)

Module Serve.

Import App.

Section WithExternals.

Variable E : Externals.

(** Whether [index] reaches a call of [generate_recommendations]: the
    condition of line 115, or that of line 138. *)
Definition runs_pipeline (req : request) (s : state E) : bool :=
  (is_POST (method req) && refresh_in_form req)
  || match last_result s with
     | None => true
     | Some _ => false
     end.

(** The requests [reqs] handled in turn, each by a call of [index] on the
    state the one before has left: the answers, and the state at the end. *)
Fixpoint serve (reqs : list request) (s : state E)
  : list (outcome response) * state E :=
  match reqs with
  | [] => ([], s)
  | req :: rest =>
      let (o, s') := index E req s in
      let (os, s'') := serve rest s' in
      (o :: os, s'')
  end.

(** Both globals unset, or both set. *)
Definition consistent (s : state E) : Prop :=
  last_result s = None <-> last_updated s = None.

(** An answer that is the report page. *)
Definition is_report (o : outcome response) : bool :=
  match o with
  | Return (ReportPage _ _) => true
  | _ => false
  end.

End WithExternals.

Arguments consistent {E} s.

End Serve.

(** ** One thread among the others *)

Module Interleaving.

Import App Threads.

Section WithExternals.

Variable E : Externals.

(** The statements a thread at [p] has yet to run, at most. *)
Definition steps_left (p : pc E) : nat :=
  match p with
  | AtStart _ => 7
  | InKickoff _ => 6
  | AtStoreResult _ _ => 5
  | AtStoreUpdated => 4
  | AtReturn => 3
  | AtReadCached => 3
  | AtMarkdown _ => 2
  | AtRender _ => 1
  | Finished _ => 0
  end.

(** A thread that is about to read [last_result] as a [str], or stands
    after the assignment of line 105. *)
Definition expects_result (p : pc E) : bool :=
  match p with
  | AtStoreUpdated | AtReturn | AtReadCached => true
  | _ => false
  end.

(** A thread about to call [markdown2.markdown(None)]. *)
Definition is_markdown_None (p : pc E) : bool :=
  match p with
  | AtMarkdown None => true
  | _ => false
  end.

(** While a thread expects [last_result], it is set; and no thread holds
    [None] for [result_str]. *)
Definition markdown_inv (c : config E) : Prop :=
  (1 <= count expects_result c -> last_result (shared c) <> None)
  /\ count is_markdown_None c = 0.

(** [n] statements of one thread, from [p] on the state [s], with no other
    thread running in between. *)
Fixpoint iter_pc (n : nat) (p : pc E) (s : state E) : pc E * state E :=
  match n with
  | 0 => (p, s)
  | S n' =>
      match step_pc E p s with
      | Some (p', s') => iter_pc n' p' s'
      | None => (p, s)
      end
  end.

(** The schedule that runs threads [first], [first + 1], ... in turn, each
    for the seven statements a request takes at most. *)
Definition serial_schedule (first n : nat) : list nat :=
  flat_map (fun i => repeat i 7) (seq first n).

End WithExternals.

Arguments steps_left {E} p.
Arguments expects_result {E} p.
Arguments is_markdown_None {E} p.
Arguments markdown_inv {E} c.

End Interleaving.

(** * Properties *)

(** ** [generate_recommendations] *)

Section GenerateRecommendations.

Variable E : Externals.

Implicit Types (s : App.state E) (e : exn).

(** What a call does, by the way [kickoff] ends. *)
Lemma generate_recommendations_eq s :
  App.generate_recommendations E s =
  match crew_kickoff E (App.world s) with
  | (Return result, w') =>
      (Return (Some (str_CrewOutput E result)),
       App.State (Some (str_CrewOutput E result)) (Some (now_strftime E w'))
                 w' (S (App.kickoff_calls s)))
  | (Raise e, w') =>
      (Raise e,
       App.State (App.last_result s) (App.last_updated s)
                 w' (S (App.kickoff_calls s)))
  end.
Proof.
  unfold App.generate_recommendations, try_except_Exception, bind,
    App.investment_crew_kickoff.
  destruct (crew_kickoff E (App.world s)) as [[result | e] w']; cbn.
  - reflexivity.
  - destruct (exn_is_Exception e); reflexivity.
Qed.

(** Every call runs the pipeline once. *)
Lemma generate_recommendations_calls s :
  App.kickoff_calls (snd (App.generate_recommendations E s))
  = S (App.kickoff_calls s).
Proof.
  rewrite generate_recommendations_eq.
  destruct (crew_kickoff E (App.world s)) as [[result | e] w']; reflexivity.
Qed.

(** C1: when the crew's kickoff raises, [generate_recommendations] raises
    the same exception and leaves [last_result] and [last_updated] as they
    were; a call that changes the cache is one whose kickoff returned. *)
Theorem failed_run_keeps_cache s :
  (forall e w',
      crew_kickoff E (App.world s) = (Raise e, w') ->
      fst (App.generate_recommendations E s) = Raise e
      /\ App.cache (snd (App.generate_recommendations E s)) = App.cache s)
  /\ (App.cache (snd (App.generate_recommendations E s)) = App.cache s
      \/ exists result w',
          crew_kickoff E (App.world s) = (Return result, w')
          /\ fst (App.generate_recommendations E s)
             = Return (Some (str_CrewOutput E result))).
Proof.
  rewrite generate_recommendations_eq. split.
  - intros e w' Hk. rewrite Hk. split; reflexivity.
  - destruct (crew_kickoff E (App.world s)) as [[result | e] w'] eqn:Hk.
    + right. exists result, w'. split; reflexivity.
    + left. reflexivity.
Qed.

(** A call running alone: when the crew's kickoff returns [result], the
    stored text is [str(result)], the stored timestamp is the clock read
    once the kickoff has returned, and the call returns the stored text. *)
Theorem successful_run_stores_result s result w' :
  crew_kickoff E (App.world s) = (Return result, w') ->
  exists s',
    App.generate_recommendations E s = (Return (App.last_result s'), s')
    /\ App.last_result s' = Some (str_CrewOutput E result)
    /\ App.last_updated s' = Some (now_strftime E w')
    /\ App.world s' = w'.
Proof.
  intros Hk. rewrite generate_recommendations_eq, Hk.
  exists (App.State (Some (str_CrewOutput E result)) (Some (now_strftime E w'))
                    w' (S (App.kickoff_calls s))).
  cbn. auto.
Qed.

End GenerateRecommendations.

(** ** [index] *)

Section Index.

Variable E : Externals.

Implicit Types (s : App.state E) (e : exn) (req : App.request).

(** A request that is not a POST carrying [refresh] and finds the cache
    filled: the pipeline is not run and nothing changes. *)
Lemma index_cached req s r :
  App.is_POST (App.method req) && App.refresh_in_form req = false ->
  App.last_result s = Some r ->
  App.index E req s
  = (Return (App.ReportPage (markdown_of_str E r) (App.last_updated s)), s).
Proof.
  intros Hc Hr. unfold App.index, App.index_result_str, bind.
  rewrite Hc. cbn. rewrite Hr. cbn. rewrite Hr. reflexivity.
Qed.

(** The same request with an empty cache: one refresh, outside any [try]. *)
Lemma index_empty req s :
  App.is_POST (App.method req) && App.refresh_in_form req = false ->
  App.last_result s = None ->
  App.index E req s =
  match crew_kickoff E (App.world s) with
  | (Return result, w') =>
      (Return (App.ReportPage (markdown_of_str E (str_CrewOutput E result))
                              (Some (now_strftime E w'))),
       App.State (Some (str_CrewOutput E result)) (Some (now_strftime E w'))
                 w' (S (App.kickoff_calls s)))
  | (Raise e, w') =>
      (Raise e,
       App.State None (App.last_updated s) w' (S (App.kickoff_calls s)))
  end.
Proof.
  intros Hc Hr. unfold App.index, App.index_result_str.
  rewrite Hc. unfold bind at 1 2. cbn. rewrite Hr.
  unfold bind. rewrite generate_recommendations_eq, Hr.
  destruct (crew_kickoff E (App.world s)) as [[result | e] w']; reflexivity.
Qed.

(** A POST carrying [refresh]: one refresh, inside the [try]. *)
Lemma index_refresh req s :
  App.is_POST (App.method req) && App.refresh_in_form req = true ->
  App.index E req s =
  match crew_kickoff E (App.world s) with
  | (Return result, w') =>
      (Return (App.ReportPage (markdown_of_str E (str_CrewOutput E result))
                              (Some (now_strftime E w'))),
       App.State (Some (str_CrewOutput E result)) (Some (now_strftime E w'))
                 w' (S (App.kickoff_calls s)))
  | (Raise e, w') =>
      (if exn_is_Exception e
       then Return (App.ErrorPage (exn_str e))
       else Raise e,
       App.State (App.last_result s) (App.last_updated s)
                 w' (S (App.kickoff_calls s)))
  end.
Proof.
  intros Hc. unfold App.index, App.index_result_str.
  rewrite Hc. unfold bind, try_except_Exception.
  rewrite generate_recommendations_eq.
  destruct (crew_kickoff E (App.world s)) as [[result | e] w']; cbn.
  - reflexivity.
  - destruct (exn_is_Exception e); reflexivity.
Qed.

(** A call running alone: a GET request is answered from the cache when
    [last_result] is set, without a kickoff and without touching the state;
    with an empty cache it makes exactly one kickoff and, when that
    returns, renders its result (when it raises, the exception leaves the
    handler). *)
Theorem get_renders_cache_or_refreshes_once req s :
  App.method req = App.GET ->
  (forall r,
      App.last_result s = Some r ->
      App.index E req s
      = (Return (App.ReportPage (markdown_of_str E r) (App.last_updated s)), s))
  /\ (App.last_result s = None ->
      App.kickoff_calls (snd (App.index E req s)) = S (App.kickoff_calls s)
      /\ forall result w',
          crew_kickoff E (App.world s) = (Return result, w') ->
          fst (App.index E req s)
          = Return (App.ReportPage (markdown_of_str E (str_CrewOutput E result))
                                   (Some (now_strftime E w')))
          /\ App.last_result (snd (App.index E req s))
             = Some (str_CrewOutput E result)).
Proof.
  intros Hm.
  assert (Hc : App.is_POST (App.method req) && App.refresh_in_form req = false)
    by (rewrite Hm; reflexivity).
  split.
  - intros r Hr. apply index_cached; assumption.
  - intros Hr. rewrite (index_empty req s Hc Hr).
    destruct (crew_kickoff E (App.world s)) as [[result | e] w'] eqn:Hk.
    + split; [reflexivity |].
      intros result' w'' Heq. injection Heq as -> ->. split; reflexivity.
    + split; [reflexivity |]. intros result' w'' Heq. discriminate.
Qed.

(** C3, as the code has it: a POST carrying [refresh] whose kickoff raises
    an [Exception] is answered with the error page holding [str(e)]; no
    exception leaves the handler, the cache is as before, and the pipeline
    ran once. *)
Theorem failed_post_refresh_renders_error req s e w' :
  App.is_POST (App.method req) && App.refresh_in_form req = true ->
  crew_kickoff E (App.world s) = (Raise e, w') ->
  exn_is_Exception e = true ->
  fst (App.index E req s) = Return (App.ErrorPage (exn_str e))
  /\ App.cache (snd (App.index E req s)) = App.cache s
  /\ App.kickoff_calls (snd (App.index E req s)) = S (App.kickoff_calls s).
Proof.
  intros Hc Hk He. rewrite (index_refresh req s Hc), Hk, He.
  repeat split.
Qed.

End Index.

(** ** The search tool *)

(** C9, as the code has it: [_run] ends the way the search ends.  A
    response is returned unchanged, and an exception of the search leaves
    [_run] as the same exception: it is neither wrapped nor turned into a
    returned text. *)
Theorem run_passes_search_through (E : Externals) (query : string) (w : World E) :
  MyCustomDuckDuckGoTool._run E query w = DuckDuckGoSearchRun_invoke E query w
  /\ (forall response w',
         DuckDuckGoSearchRun_invoke E query w = (Return response, w') ->
         MyCustomDuckDuckGoTool._run E query w = (Return response, w'))
  /\ (forall e w',
         DuckDuckGoSearchRun_invoke E query w = (Raise e, w') ->
         MyCustomDuckDuckGoTool._run E query w = (Raise e, w')).
Proof.
  assert (H : MyCustomDuckDuckGoTool._run E query w
              = DuckDuckGoSearchRun_invoke E query w).
  { unfold MyCustomDuckDuckGoTool._run, bind, ret.
    destruct (DuckDuckGoSearchRun_invoke E query w) as [[r | e] w']; reflexivity. }
  split; [exact H |].
  split; intros ? ? Hi; rewrite H; exact Hi.
Qed.

(** ** Request threads *)

Section ThreadsFacts.

Variable E : Externals.

Implicit Types (c : Threads.config E) (p : Threads.pc E) (l : list (Threads.pc E)).

(** Replacing one thread moves each count by that thread's share. *)
Lemma count_filter_insert (f : Threads.pc E -> bool) l i p p' :
  l !! i = Some p ->
  length (List.filter f (<[i := p']> l)) + (if f p then 1 else 0)
  = length (List.filter f l) + (if f p' then 1 else 0).
Proof.
  revert i. induction l as [| q l IH]; intros [| i] Hl; try discriminate.
  - injection Hl as ->. cbn. destruct (f p), (f p'); cbn; lia.
  - simpl in Hl. specialize (IH i Hl). simpl.
    destruct (f q); simpl; lia.
Qed.

Lemma count_filter_lookup (f : Threads.pc E -> bool) l i p :
  l !! i = Some p -> f p = true -> 1 <= length (List.filter f l).
Proof.
  revert i. induction l as [| q l IH]; intros [| i] Hl Hf; try discriminate.
  - injection Hl as ->. cbn. rewrite Hf. cbn. lia.
  - cbn in Hl. specialize (IH i Hl Hf). cbn. destruct (f q); cbn; lia.
Qed.

Lemma count_filter_le (f g : Threads.pc E -> bool) l :
  (forall p, f p = true -> g p = true) ->
  length (List.filter f l) <= length (List.filter g l).
Proof.
  intros Hfg. induction l as [| q l IH]; cbn; [lia |].
  destruct (f q) eqn:Hf.
  - rewrite (Hfg q Hf). cbn. lia.
  - destruct (g q); cbn; lia.
Qed.

Lemma count_filter_length (f : Threads.pc E -> bool) l :
  length (List.filter f l) <= length l.
Proof. induction l as [| q l IH]; cbn; [lia |]. destruct (f q); cbn; lia. Qed.

(** A step is a statement of one thread. *)
Lemma step_inv i c c' :
  Threads.step E i c = Some c' ->
  exists p p' s',
    Threads.threads c !! i = Some p
    /\ Threads.step_pc E p (Threads.shared c) = Some (p', s')
    /\ c' = Threads.Config s' (<[i := p']> (Threads.threads c)).
Proof.
  unfold Threads.step. intros H.
  destruct (Threads.threads c !! i) as [p |] eqn:Hp; [| discriminate].
  destruct (Threads.step_pc E p (Threads.shared c)) as [[p' s'] |] eqn:Hs;
    [| discriminate].
  injection H as <-. exists p, p', s'. auto.
Qed.

(** An invariant of the steps holds after every schedule. *)
Lemma run_invariant (P : Threads.config E -> Prop) :
  (forall i c c', Threads.step E i c = Some c' -> P c -> P c') ->
  forall sched c, P c -> P (Threads.run E sched c).
Proof.
  intros Hstep sched. induction sched as [| i sched IH]; intros c Hc; [exact Hc |].
  cbn. apply IH. unfold Threads.step_or_stay.
  destruct (Threads.step E i c) as [c' |] eqn:Hs; [| exact Hc].
  exact (Hstep i c c' Hs Hc).
Qed.

Lemma step_budget i c c' :
  Threads.step E i c = Some c' -> Threads.budget c' <= Threads.budget c.
Proof.
  intros H. destruct (step_inv i c c' H) as (p & p' & s' & Hp & Hs & ->).
  unfold Threads.budget, Threads.in_flight, Threads.count. cbn.
  pose proof (count_filter_insert Threads.is_InKickoff _ i p p' Hp) as H1.
  pose proof (count_filter_insert Threads.is_AtStart _ i p p' Hp) as H2.
  destruct p; cbn in Hs.
  - destruct (App.is_POST (App.method req) && App.refresh_in_form req).
    + injection Hs as <- <-. cbn in *. lia.
    + destruct (App.last_result (Threads.shared c)); injection Hs as <- <-;
        cbn in *; lia.
  - unfold App.investment_crew_kickoff in Hs.
    destruct (crew_kickoff E (App.world (Threads.shared c))) as [[r | e] w'];
      injection Hs as <- <-; cbn in *; lia.
  - injection Hs as <- <-. cbn in *. lia.
  - injection Hs as <- <-. cbn in *. lia.
  - injection Hs as <- <-. cbn in *. lia.
  - injection Hs as <- <-. cbn in *. lia.
  - destruct result_str; injection Hs as <- <-; cbn in *; lia.
  - injection Hs as <- <-. cbn in *. lia.
  - discriminate.
Qed.

Lemma step_active i c c' p :
  Threads.step E i c = Some c' ->
  Threads.threads c !! i = Some p ->
  Threads.active c' <= Threads.active c + 1
  /\ (Threads.idle p = false -> Threads.active c' <= Threads.active c).
Proof.
  intros H Hp. destruct (step_inv i c c' H) as (q & p' & s' & Hq & Hs & ->).
  rewrite Hp in Hq. injection Hq as <-.
  unfold Threads.active, Threads.count. cbn.
  pose proof (count_filter_insert (fun p => negb (Threads.idle p)) _ i p p' Hp) as H1.
  cbn in H1. destruct (Threads.idle p), (Threads.idle p'); cbn in H1;
    split; intros; try discriminate; lia.
Qed.

Lemma serial_active sched : forall c,
  Threads.serial E sched c = true ->
  Threads.active c <= 1 ->
  Threads.active (Threads.run E sched c) <= 1.
Proof.
  induction sched as [| i sched IH]; intros c Hser Hc; [exact Hc |].
  cbn in Hser. apply andb_true_iff in Hser as [Hi Hrest].
  cbn. apply IH; [exact Hrest |].
  unfold Threads.step_or_stay.
  destruct (Threads.step E i c) as [c' |] eqn:Hs; [| exact Hc].
  destruct (step_inv i c c' Hs) as (p & p' & s' & Hp & _ & _).
  destruct (step_active i c c' p Hs Hp) as [H1 H2].
  apply orb_true_iff in Hi as [H0 | Hact].
  - apply Nat.eqb_eq in H0. lia.
  - rewrite Hp in Hact. apply negb_true_iff in Hact. specialize (H2 Hact). lia.
Qed.

Lemma in_flight_le_active c : Threads.in_flight c <= Threads.active c.
Proof.
  apply count_filter_le. intros [] Hp; cbn in *; congruence.
Qed.

Lemma init_config_budget w reqs :
  Threads.budget (Threads.init_config (E:=E) w reqs) = length reqs.
Proof.
  unfold Threads.budget, Threads.in_flight, Threads.count. cbn.
  induction reqs as [| r reqs IH]; cbn in *; lia.
Qed.

Lemma init_config_active w reqs :
  Threads.active (Threads.init_config (E:=E) w reqs) = 0.
Proof.
  unfold Threads.active, Threads.count. cbn.
  induction reqs as [| r reqs IH]; cbn in *; lia.
Qed.

(** What a statement does to the cache: nothing, or it is line 105, or it
    is line 106. *)
Lemma step_pc_cache p s p' s' :
  Threads.step_pc E p s = Some (p', s') ->
  (App.cache s' = App.cache s
   /\ Threads.is_AtStoreUpdated p = false
   /\ Threads.is_AtStoreUpdated p' = false)
  \/ (exists result,
        p = Threads.AtStoreResult E result
        /\ p' = Threads.AtStoreUpdated
        /\ App.last_result s' = Some (str_CrewOutput E result)
        /\ App.last_updated s' = App.last_updated s)
  \/ (p = Threads.AtStoreUpdated
      /\ p' = Threads.AtReturn
      /\ App.last_result s' = App.last_result s
      /\ App.last_updated s' = Some (now_strftime E (App.world s))).
Proof.
  intros Hs. destruct p; simpl in Hs.
  - destruct (App.is_POST (App.method req) && App.refresh_in_form req).
    + injection Hs as <- <-. left. auto.
    + destruct (App.last_result s); injection Hs as <- <-; left; auto.
  - unfold App.investment_crew_kickoff in Hs.
    destruct (crew_kickoff E (App.world s)) as [[r | e] w'];
      injection Hs as <- <-; left; auto.
  - injection Hs as <- <-. right. left. exists result. auto.
  - injection Hs as <- <-. right. right. auto.
  - injection Hs as <- <-. left. auto.
  - injection Hs as <- <-. left. auto.
  - destruct result_str; injection Hs as <- <-; left; auto.
  - injection Hs as <- <-. left. auto.
  - discriminate.
Qed.

Lemma step_cache_inv i c c' :
  Threads.step E i c = Some c' -> Threads.cache_inv c -> Threads.cache_inv c'.
Proof.
  intros H (I1 & I2 & I3).
  destruct (step_inv i c c' H) as (p & p' & s' & Hp & Hs & ->).
  unfold Threads.cache_inv, Threads.between_assignments, Threads.count in *.
  simpl.
  pose proof (count_filter_insert Threads.is_AtStoreUpdated _ i p p' Hp) as H1.
  pose proof (count_filter_lookup Threads.is_AtStoreUpdated _ i p Hp) as H2.
  destruct (step_pc_cache p _ p' s' Hs)
    as [(Hc & Hp1 & Hp2) | [(r & -> & -> & Hr & Hu) | (-> & -> & Hr & Hu)]].
  - rewrite Hp1, Hp2 in H1. injection Hc as -> ->.
    repeat split; intros.
    + apply I1. lia.
    + apply I2. assumption.
    + specialize (I3 ltac:(assumption) ltac:(assumption)). lia.
  - simpl in H1. rewrite Hr, Hu.
    repeat split; intros; try congruence. lia.
  - simpl in H1. rewrite Hr, Hu.
    assert (App.last_result (Threads.shared c) <> None)
      by (apply I1, H2; reflexivity).
    repeat split; intros; congruence.
Qed.

Lemma init_config_cache_inv w reqs :
  Threads.cache_inv (Threads.init_config (E:=E) w reqs).
Proof.
  unfold Threads.cache_inv, Threads.between_assignments, Threads.count. cbn.
  assert (length (List.filter Threads.is_AtStoreUpdated
                    (map (Threads.AtStart (E:=E)) reqs)) = 0) as ->
    by (induction reqs as [| r reqs IH]; cbn in *; lia).
  repeat split; intros; try congruence; lia.
Qed.

(** No statement unsets a global, and only lines 105 and 106 assign one. *)
Lemma step_cache i c c' p :
  Threads.step E i c = Some c' ->
  Threads.threads c !! i = Some p ->
  (App.last_result (Threads.shared c) <> None ->
   App.last_result (Threads.shared c') <> None)
  /\ (App.last_updated (Threads.shared c) <> None ->
      App.last_updated (Threads.shared c') <> None)
  /\ (App.cache (Threads.shared c') = App.cache (Threads.shared c)
      \/ (exists result, p = Threads.AtStoreResult E result)
      \/ p = Threads.AtStoreUpdated).
Proof.
  intros H Hp. destruct (step_inv i c c' H) as (q & p' & s' & Hq & Hs & ->).
  rewrite Hp in Hq. injection Hq as <-. simpl.
  destruct (step_pc_cache p _ p' s' Hs)
    as [(Hc & _ & _) | [(r & -> & -> & Hr & Hu) | (-> & -> & Hr & Hu)]].
  - pose proof Hc as Hc'. unfold App.cache in Hc'. injection Hc' as -> ->.
    repeat split; auto.
  - rewrite Hr, Hu. repeat split; eauto; congruence.
  - rewrite Hr, Hu. repeat split; eauto; congruence.
Qed.

End ThreadsFacts.

(** ** One thread alone is [index] *)

(** A request handled without interference ends, within seven statements,
    in the state and with the answer of [App.index]. *)
Lemma single_thread_is_index (E : Externals) (req : App.request) (s : App.state E) :
  Threads.run E (repeat 0 7) (Threads.Config s [Threads.AtStart req])
  = Threads.Config (snd (App.index E req s))
                   [Threads.Finished (fst (App.index E req s))].
Proof.
  destruct (App.is_POST (App.method req) && App.refresh_in_form req) eqn:Hc.
  - rewrite (index_refresh E req s Hc).
    unfold Threads.run. simpl. unfold Threads.step_or_stay at 7.
    unfold Threads.step. simpl. rewrite Hc.
    unfold Threads.step_or_stay at 6. unfold Threads.step. simpl.
    unfold App.investment_crew_kickoff.
    destruct (crew_kickoff E (App.world s)) as [[result | e] w']; simpl.
    + reflexivity.
    + unfold Threads.kickoff_raised. simpl.
      destruct (exn_is_Exception e); reflexivity.
  - destruct (App.last_result s) as [r |] eqn:Hr.
    + rewrite (index_cached E req s r Hc Hr).
      unfold Threads.run. simpl. unfold Threads.step_or_stay at 7.
      unfold Threads.step. simpl. rewrite Hc, Hr.
      unfold Threads.step_or_stay at 6. unfold Threads.step. simpl. rewrite Hr.
      reflexivity.
    + rewrite (index_empty E req s Hc Hr).
      unfold Threads.run. simpl. unfold Threads.step_or_stay at 7.
      unfold Threads.step. simpl. rewrite Hc, Hr.
      unfold Threads.step_or_stay at 6. unfold Threads.step. simpl.
      unfold App.investment_crew_kickoff.
      destruct (crew_kickoff E (App.world s)) as [[result | e] w']; simpl.
      * reflexivity.
      * rewrite Hr. reflexivity.
Qed.

(** ** Concurrent requests *)

(** C2, as the code has it: no lock is taken.  Each request runs the
    pipeline at most once, so after any interleaving the executions
    finished and in flight together number at most the requests received;
    and when the requests are handled one at a time, at most one execution
    is in flight. *)
Theorem pipeline_runs_bounded_by_requests
  (E : Externals) (w : World E) (reqs : list App.request) (sched : list nat) :
  let c := Threads.run E sched (Threads.init_config w reqs) in
  App.kickoff_calls (Threads.shared c) + Threads.in_flight c <= length reqs
  /\ (Threads.serial E sched (Threads.init_config w reqs) = true ->
      Threads.in_flight c <= 1).
Proof.
  cbv zeta. split.
  - assert (H : Threads.budget (Threads.run E sched (Threads.init_config w reqs))
                 <= length reqs).
    { apply (run_invariant E (fun c => Threads.budget c <= length reqs)).
      - intros i c c' Hs Hc. pose proof (step_budget E i c c' Hs). lia.
      - rewrite init_config_budget. lia. }
    unfold Threads.budget in H. lia.
  - intros Hser.
    pose proof (serial_active E sched _ Hser) as H.
    rewrite init_config_active in H. specialize (H ltac:(lia)).
    pose proof (in_flight_le_active E
      (Threads.run E sched (Threads.init_config w reqs))). lia.
Qed.

(** C10, as the code has it: both globals start unset; after any
    interleaving [last_updated] is set only if [last_result] is, and while
    no thread stands between the assignments of lines 105 and 106 the one
    is [None] exactly when the other is; no statement resets either to
    [None], and only those two lines assign them. *)
Theorem cache_fields_agree_outside_assignment_window
  (E : Externals) (w : World E) (reqs : list App.request) (sched : list nat) :
  let c0 := Threads.init_config w reqs in
  let c := Threads.run E sched c0 in
  App.cache (Threads.shared c0) = (None, None)
  /\ (App.last_updated (Threads.shared c) <> None ->
      App.last_result (Threads.shared c) <> None)
  /\ (Threads.between_assignments c = 0 ->
      (App.last_result (Threads.shared c) = None
       <-> App.last_updated (Threads.shared c) = None))
  /\ (forall i c' p,
        Threads.step E i c = Some c' ->
        Threads.threads c !! i = Some p ->
        (App.last_result (Threads.shared c) <> None ->
         App.last_result (Threads.shared c') <> None)
        /\ (App.last_updated (Threads.shared c) <> None ->
            App.last_updated (Threads.shared c') <> None)
        /\ (App.cache (Threads.shared c') = App.cache (Threads.shared c)
            \/ (exists result, p = Threads.AtStoreResult E result)
            \/ p = Threads.AtStoreUpdated)).
Proof.
  cbv zeta.
  pose proof (run_invariant E Threads.cache_inv (step_cache_inv E) sched _
                (init_config_cache_inv E w reqs)) as (I1 & I2 & I3).
  split; [reflexivity |]. split; [exact I2 |]. split.
  - intros Hb. split.
    + intros Hr.
      destruct (App.last_updated
                  (Threads.shared (Threads.run E sched (Threads.init_config w reqs))))
        eqn:Hu; [| reflexivity].
      exfalso. revert Hr. apply I2. discriminate.
    + intros Hu.
      destruct (App.last_result
                  (Threads.shared (Threads.run E sched (Threads.init_config w reqs))))
        eqn:Hr; [| reflexivity].
      exfalso. pose proof (I3 ltac:(discriminate) Hu). lia.
  - intros i c' p Hs Hp. exact (step_cache E i _ c' p Hs Hp).
Qed.

(** ** The reasoning loop *)

Section ReasoningLoop.

Variable max_rounds : nat.
Variable section_marker : string -> string.

Implicit Types (a : Crew.Agent) (st : Crew.loop_state).

Lemma loop_step_terminal a st :
  Crew.terminal st = true -> Crew.loop_step max_rounds a st = st.
Proof.
  unfold Crew.terminal, Crew.loop_step.
  destruct (Crew.at_phase st); intros H; try discriminate; reflexivity.
Qed.

Lemma loop_measure_terminal st :
  Crew.loop_measure max_rounds st = 0 <-> Crew.terminal st = true.
Proof.
  unfold Crew.loop_measure, Crew.terminal.
  destruct (Crew.at_phase st); split; intros H; try discriminate;
    try reflexivity; lia.
Qed.

Lemma loop_step_measure a st :
  Crew.terminal st = false ->
  Crew.loop_measure max_rounds (Crew.loop_step max_rounds a st) < Crew.loop_measure max_rounds st.
Proof.
  unfold Crew.terminal, Crew.loop_step, Crew.loop_measure.
  destruct (Crew.at_phase st) as [| tool query | |]; intros H; try discriminate.
  - destruct (Crew.llm a (Crew.transcript st) (Crew.tool_descriptors a))
      as [cause | [text | toolName query]]; simpl; try lia.
    destruct (Nat.leb max_rounds (Crew.rounds st)) eqn:Hle; simpl; try lia.
    apply Nat.leb_gt in Hle.
    destruct (Crew.find_tool a toolName); simpl; lia.
  - destruct (Crew.tool_run tool query); simpl; lia.
Qed.

Lemma loop_step_ok a st :
  Crew.loop_ok max_rounds st -> Crew.loop_ok max_rounds (Crew.loop_step max_rounds a st).
Proof.
  unfold Crew.loop_ok, Crew.loop_step.
  destruct (Crew.at_phase st) as [| tool query | |] eqn:Hp; intros H.
  - destruct (Crew.llm a (Crew.transcript st) (Crew.tool_descriptors a))
      as [cause | [text | toolName query]]; simpl; try lia.
    destruct (Nat.leb max_rounds (Crew.rounds st)) eqn:Hle; simpl; try lia.
    apply Nat.leb_gt in Hle.
    destruct (Crew.find_tool a toolName); simpl; lia.
  - destruct (Crew.tool_run tool query); simpl; lia.
  - rewrite Hp. exact H.
  - rewrite Hp. exact H.
Qed.

Lemma loop_steps_ok n : forall a st,
  Crew.loop_ok max_rounds st -> Crew.loop_ok max_rounds (Crew.loop_steps max_rounds n a st).
Proof.
  induction n as [| n IH]; intros a st H; [exact H |].
  simpl. apply IH, loop_step_ok, H.
Qed.

(** The loop ends within the transitions its measure counts. *)
Lemma loop_steps_terminal n : forall a st,
  Crew.loop_measure max_rounds st <= n ->
  Crew.terminal (Crew.loop_steps max_rounds n a st) = true.
Proof.
  induction n as [| n IH]; intros a st H.
  - simpl. apply loop_measure_terminal. lia.
  - simpl. apply IH.
    destruct (Crew.terminal st) eqn:Ht.
    + rewrite (loop_step_terminal a st Ht).
      apply loop_measure_terminal in Ht. lia.
    + pose proof (loop_step_measure a st Ht). lia.
Qed.

Lemma Agent_execute_terminal a t context_text :
  Crew.terminal (Crew.Agent_execute max_rounds section_marker a t context_text)
  = true.
Proof.
  unfold Crew.Agent_execute. apply loop_steps_terminal.
  unfold Crew.loop_measure, Crew.loop_bound, Crew.loop_start. simpl. lia.
Qed.


Lemma always_tool_call_limit a :
  Crew.always_tool_call a ->
  forall k st,
    Crew.at_phase st = Crew.AWAITING_MODEL ->
    Crew.rounds st + k = max_rounds ->
    exists st',
      Crew.loop_steps max_rounds (2 * k + 1) a st = st'
      /\ Crew.at_phase st' = Crew.FAILED Crew.ReasoningLimitExceeded
      /\ Crew.rounds st' = max_rounds.
Proof.
  intros Hm. induction k as [| k IH]; intros st Hp Hr.
  - destruct (Hm (Crew.transcript st)) as (n & q & tool & text & Hl & _ & _).
    eexists. split; [reflexivity |]. simpl.
    unfold Crew.loop_step. rewrite Hp, Hl.
    replace (Nat.leb max_rounds (Crew.rounds st)) with true
      by (symmetry; apply Nat.leb_le; lia).
    simpl. split; [reflexivity | lia].
  - destruct (Hm (Crew.transcript st)) as (n & q & tool & text & Hl & Hf & Ht).
    replace (2 * S k + 1) with (S (S (2 * k + 1))) by lia.
    simpl Crew.loop_steps.
    assert (H1 : Crew.loop_step max_rounds a st
                 = {| Crew.at_phase := Crew.EXECUTING_TOOL tool q;
                      Crew.transcript := Crew.transcript st;
                      Crew.rounds := Crew.rounds st |}).
    { unfold Crew.loop_step. rewrite Hp, Hl.
      replace (Nat.leb max_rounds (Crew.rounds st)) with false
        by (symmetry; apply Nat.leb_gt; lia).
      rewrite Hf. reflexivity. }
    rewrite H1.
    assert (H2 : Crew.loop_step max_rounds a
                   {| Crew.at_phase := Crew.EXECUTING_TOOL tool q;
                      Crew.transcript := Crew.transcript st;
                      Crew.rounds := Crew.rounds st |}
                 = {| Crew.at_phase := Crew.AWAITING_MODEL;
                      Crew.transcript := Crew.transcript st ++ text;
                      Crew.rounds := S (Crew.rounds st) |}).
    { unfold Crew.loop_step. simpl. rewrite Ht. reflexivity. }
    rewrite H2. apply IH; simpl; [reflexivity | lia].
Qed.

(** C7: the loop ends on every input, within [2 * max_rounds + 1]
    transitions and [max_rounds] tool-call rounds; and under a model that
    asks for a tool at every turn it ends in [ReasoningLimitExceeded] after
    exactly [max_rounds] rounds. *)
Theorem reasoning_loop_is_bounded (a : Crew.Agent) (t : Crew.Task) (context_text : string) :
  let st := Crew.Agent_execute max_rounds section_marker a t context_text in
  Crew.terminal st = true
  /\ Crew.rounds st <= max_rounds
  /\ (Crew.always_tool_call a ->
      Crew.loop_result st = Some (inl Crew.ReasoningLimitExceeded)
      /\ Crew.rounds st = max_rounds).
Proof.
  cbv zeta. split; [apply Agent_execute_terminal |]. split.
  - pose proof (loop_steps_ok (Crew.loop_bound max_rounds) a
                  (Crew.loop_start (Crew.compose_prompt section_marker a t context_text)))
      as H.
    unfold Crew.Agent_execute.
    assert (H0 : Crew.loop_ok max_rounds (Crew.loop_start
                            (Crew.compose_prompt section_marker a t context_text)))
      by (unfold Crew.loop_ok; simpl; lia).
    specialize (H H0). unfold Crew.loop_ok in H.
    destruct (Crew.at_phase _); lia.
  - intros Hm.
    destruct (always_tool_call_limit a Hm max_rounds
                (Crew.loop_start (Crew.compose_prompt section_marker a t context_text))
                eq_refl eq_refl) as (st' & Hst & Hp & Hr).
    unfold Crew.Agent_execute, Crew.loop_bound. rewrite Hst.
    unfold Crew.loop_result. rewrite Hp. auto.
Qed.

End ReasoningLoop.

(** ** The pipeline *)

Section Pipeline.

Variable max_rounds : nat.
Variable section_marker : string -> string.

Implicit Types (tasks todo : list Crew.Task) (t : Crew.Task) (st : Crew.run_state).

Lemma dependencies_earlier_spec tasks : forall k,
  Crew.dependencies_earlier k tasks = true
  <-> forall i t d,
      tasks !! i = Some t -> In d (Crew.context t) -> d < k + i.
Proof.
  induction tasks as [| t0 tasks IH]; intros k; simpl.
  - split; [intros _ i t d Hi | reflexivity]. discriminate.
  - rewrite andb_true_iff, forallb_forall, IH. split.
    + intros [H0 Hrest] [| i] t d Hi Hd; simpl in Hi.
      * injection Hi as <-. apply H0 in Hd. apply Nat.ltb_lt in Hd. lia.
      * specialize (Hrest i t d Hi Hd). lia.
    + intros H. split.
      * intros d Hd. apply Nat.ltb_lt.
        specialize (H 0 t0 d eq_refl Hd). lia.
      * intros i t d Hi Hd. specialize (H (S i) t d Hi Hd). lia.
Qed.







End Pipeline.

Section PipelineProperties.

Variable max_rounds : nat.
Variable section_marker : string -> string.



(** C6: before anything runs, the configuration is checked: a task with a
    dependency at its own or a later position makes start-up fail with
    [DependencyOrderError] and no agent is invoked; a configuration whose
    dependencies all stand earlier is run; the crew of [app.py] passes. *)
Theorem later_dependency_is_rejected_at_startup (tasks : list Crew.Task) :
  ((exists i t d, tasks !! i = Some t /\ In d (Crew.context t) /\ i <= d) ->
   Crew.Pipeline_run max_rounds section_marker tasks = inl Crew.DependencyOrderError
   /\ Crew.invocations_made (Crew.Pipeline_run max_rounds section_marker tasks) = [])
  /\ ((forall i t d, tasks !! i = Some t -> In d (Crew.context t) -> d < i) ->
      Crew.Pipeline_run max_rounds section_marker tasks
      = inr (Crew.run_tasks max_rounds section_marker tasks tasks Crew.run_start))
  /\ (forall llm_client search,
        Crew.validate (Crew.investment_crew llm_client search) = None).
Proof.
  unfold Crew.Pipeline_run, Crew.validate.
  pose proof (dependencies_earlier_spec tasks 0) as Hspec.
  split; [| split].
  - intros (i & t & d & Hi & Hd & Hle).
    destruct (Crew.dependencies_earlier 0 tasks) eqn:Hv.
    + pose proof (proj1 Hspec eq_refl i t d Hi Hd). lia.
    + split; reflexivity.
  - intros H. rewrite (proj2 Hspec H). reflexivity.
  - intros llm_client search. reflexivity.
Qed.

End PipelineProperties.

(** ** The definitions at work *)

Example first_get_fills_cache :
  App.index Stub.externals Stub.get_ (Stub.fresh 0)
  = (Return (App.ReportPage "<html># Report A</html>" (Some "2025-01-01 09:00:00")),
     @App.State Stub.externals (Some "# Report A") (Some "2025-01-01 09:00:00") 1 1).
Proof. reflexivity. Qed.

Example post_refresh_replaces_cache :
  App.index Stub.externals Stub.post_refresh (Stub.filled 1)
  = (Return (App.ReportPage "<html># Report B</html>" (Some "2025-01-01 10:00:00")),
     @App.State Stub.externals (Some "# Report B") (Some "2025-01-01 10:00:00") 2 2).
Proof. reflexivity. Qed.

Example post_without_refresh_reads_cache :
  App.index Stub.externals (App.Request App.POST ["other"]) (Stub.filled 1)
  = (Return (App.ReportPage "<html># Report A</html>" (Some "2025-01-01 09:00:00")),
     Stub.filled 1).
Proof. reflexivity. Qed.

Example interrupt_passes_the_except_clause :
  fst (App.index Stub.externals Stub.post_refresh (Stub.filled 3))
  = Raise Stub.interrupt.
Proof. reflexivity. Qed.

Example search_returns_response :
  MyCustomDuckDuckGoTool._run Stub.externals "nvidia" 0
  = (Return "results for nvidia", 0).
Proof. reflexivity. Qed.

Example crew_of_app_is_valid :
  Crew.validate (Crew.investment_crew Stub.echo_llm Stub.search) = None.
Proof. reflexivity. Qed.

(** One tool call, then the answer built from what the tool returned. *)
Example search_once_round_trip :
  let st :=
    Crew.Agent_execute 3 Stub.section_marker
      (Crew.market_researcher Stub.search_once_llm Stub.search)
      (Crew.market_research_task Stub.search_once_llm Stub.search) "" in
  Crew.loop_result st = Some (inr "RESULT:X") /\ Crew.rounds st = 1.
Proof. vm_compute. split; reflexivity. Qed.

(** A tool failure ends the run at the failing task. *)
Example tool_failure_fails_the_run :
  let tasks :=
    Crew.investment_crew Stub.tool_loop_llm (fun _ => inl "timed out") in
  Crew.PipelineResult_text
    (Crew.run_tasks 3 Stub.section_marker tasks tasks Crew.run_start) = None
  /\ Crew.failure (Crew.run_tasks 3 Stub.section_marker tasks tasks Crew.run_start)
     = Some (0, Crew.ToolError "timed out").
Proof. vm_compute. split; reflexivity. Qed.

(** ** Instances of the theorems *)

(** A cache filled by run 0, and a run that raises: the call raises the
    same exception and the cache is as before. *)
Lemma failed_run_keeps_cache_at_stub :
  fst (App.generate_recommendations Stub.externals (Stub.filled 2)) = Raise Stub.boom
  /\ App.cache (snd (App.generate_recommendations Stub.externals (Stub.filled 2)))
     = App.cache (Stub.filled 2).
Proof.
  exact (proj1 (failed_run_keeps_cache Stub.externals (Stub.filled 2))
               Stub.boom 3 eq_refl).
Defined.

(** The first run, from the empty cache. *)
Lemma successful_run_stores_result_at_stub :
  exists s',
    App.generate_recommendations Stub.externals (Stub.fresh 0)
    = (Return (App.last_result s'), s')
    /\ App.last_result s' = Some "# Report A"
    /\ App.last_updated s' = Some "2025-01-01 09:00:00"
    /\ App.world s' = 1.
Proof.
  exact (successful_run_stores_result Stub.externals (Stub.fresh 0)
           "# Report A" 1 eq_refl).
Defined.

(** A GET on a filled cache: the cached report, and nothing changes. *)
Lemma get_renders_cache_at_stub :
  App.index Stub.externals Stub.get_ (Stub.filled 1)
  = (Return (App.ReportPage "<html># Report A</html>" (Some "2025-01-01 09:00:00")),
     Stub.filled 1).
Proof.
  exact (proj1 (get_renders_cache_or_refreshes_once Stub.externals Stub.get_
                  (Stub.filled 1) eq_refl)
               "# Report A" eq_refl).
Defined.

(** A POST carrying [refresh] whose run raises an [Exception]. *)
Lemma failed_post_refresh_renders_error_at_stub :
  fst (App.index Stub.externals Stub.post_refresh (Stub.filled 2))
  = Return (App.ErrorPage "model timed out")
  /\ App.cache (snd (App.index Stub.externals Stub.post_refresh (Stub.filled 2)))
     = App.cache (Stub.filled 2)
  /\ App.kickoff_calls (snd (App.index Stub.externals Stub.post_refresh (Stub.filled 2)))
     = 2.
Proof.
  exact (failed_post_refresh_renders_error Stub.externals Stub.post_refresh
           (Stub.filled 2) Stub.boom 3 eq_refl eq_refl eq_refl).
Defined.

(** A search that times out. *)
Lemma run_passes_search_through_at_stub :
  MyCustomDuckDuckGoTool._run Stub.externals "down" 0 = (Raise Stub.search_down, 0).
Proof.
  exact (proj2 (proj2 (run_passes_search_through Stub.externals "down" 0))
               Stub.search_down 0 eq_refl).
Defined.

(** Two refreshes, the second begun once the first has been answered. *)
Lemma serial_refreshes_one_in_flight :
  Threads.in_flight
    (Threads.run Stub.externals [0; 0; 0; 0; 0; 0; 0; 1]
       (Stub.started [Stub.post_refresh; Stub.post_refresh]))
  <= 1.
Proof.
  exact (proj2 (pipeline_runs_bounded_by_requests Stub.externals 0
                  [Stub.post_refresh; Stub.post_refresh] [0; 0; 0; 0; 0; 0; 0; 1])
               eq_refl).
Defined.

(** One refresh, past both assignments. *)
Lemma cache_fields_agree_after_one_refresh :
  App.last_result
    (Threads.shared
       (Threads.run Stub.externals [0; 0; 0; 0]
          (Stub.started [Stub.post_refresh]))) = None
  <-> App.last_updated
        (Threads.shared
           (Threads.run Stub.externals [0; 0; 0; 0]
              (Stub.started [Stub.post_refresh]))) = None.
Proof.
  exact (proj1 (proj2 (proj2 (cache_fields_agree_outside_assignment_window
                                Stub.externals 0 [Stub.post_refresh] [0; 0; 0; 0])))
               eq_refl).
Defined.


(** A first task that depends on the second. *)
Lemma misordered_is_rejected :
  Crew.Pipeline_run 3 Stub.section_marker Stub.misordered
  = inl Crew.DependencyOrderError
  /\ Crew.invocations_made (Crew.Pipeline_run 3 Stub.section_marker Stub.misordered)
     = [].
Proof.
  refine (proj1 (later_dependency_is_rejected_at_startup 3 Stub.section_marker
                   Stub.misordered) _).
  exists 0, {| Crew.description := "Write the report.";
               Crew.expected_output := "A report";
               Crew.agent := Crew.investment_advisor Stub.echo_llm Stub.search;
               Crew.context := [1] |}, 1.
  split; [reflexivity |]. split; [left; reflexivity | lia].
Defined.

(** A model that asks for the search tool at every turn, with three rounds
    allowed. *)
Lemma tool_loop_hits_the_limit :
  let st :=
    Crew.Agent_execute 3 Stub.section_marker
      (Crew.market_researcher Stub.tool_loop_llm Stub.search)
      (Crew.market_research_task Stub.tool_loop_llm Stub.search) "" in
  Crew.loop_result st = Some (inl Crew.ReasoningLimitExceeded)
  /\ Crew.rounds st = 3.
Proof.
  refine (proj2 (proj2 (reasoning_loop_is_bounded 3 Stub.section_marker
                          (Crew.market_researcher Stub.tool_loop_llm Stub.search)
                          (Crew.market_research_task Stub.tool_loop_llm Stub.search)
                          "")) _).
  intros prompt.
  exists "DuckDuckGo Search Tool", "stocks",
    (Crew.MyCustomDuckDuckGoTool_instance Stub.search), "RESULT:stocks".
  repeat split.
Defined.

(** ** Where the code departs from the specification *)

(** C2: two refresh requests, each having called [kickoff] before the other
    has returned: two pipeline executions are in flight.  And a GET that
    runs between the two assignments of a second refresh is answered with
    the text of the second run under the timestamp of the first. *)
Lemma two_refreshes_run_concurrently :
  Threads.in_flight
    (Threads.run Stub.externals [0; 1]
       (Stub.started [Stub.post_refresh; Stub.post_refresh]))
  = 2
  /\ Threads.answer
       (Threads.run Stub.externals [0; 0; 0; 0; 0; 0; 0; 1; 1; 1; 2; 2; 2; 2]
          (Stub.started [Stub.post_refresh; Stub.post_refresh; Stub.get_]))
       2
     = Some (Return (App.ReportPage "<html># Report B</html>"
                                    (Some "2025-01-01 09:00:00")))
  /\ Threads.answer
       (Threads.run Stub.externals
          [0; 0; 0; 0; 0; 0; 0; 1; 1; 1; 2; 2; 2; 2; 1; 1; 1; 1]
          (Stub.started [Stub.post_refresh; Stub.post_refresh; Stub.get_]))
       1
     = Some (Return (App.ReportPage "<html># Report B</html>"
                                    (Some "2025-01-01 10:00:00"))).
Proof. repeat split. Qed.

(** C3: a GET that finds the cache empty and whose kickoff raises: the
    exception leaves [index] and no error page is rendered.  The same
    failure on a POST carrying [refresh] is rendered, and the page holds
    [str(e)] alone. *)
Lemma failed_get_refresh_escapes_handler :
  App.index Stub.externals Stub.get_ (Stub.fresh 2)
  = (Raise Stub.boom, @App.State Stub.externals None None 3 1)
  /\ fst (App.index Stub.externals Stub.post_refresh (Stub.fresh 2))
     = Return (App.ErrorPage "model timed out").
Proof. split; reflexivity. Qed.

(** C9: the search times out; what leaves [_run] is the search's own
    exception, whose class is not [ToolError]. *)
Lemma search_failure_is_not_ToolError :
  MyCustomDuckDuckGoTool._run Stub.externals "down" 0 = (Raise Stub.search_down, 0)
  /\ exn_class Stub.search_down = "DuckDuckGoSearchException"
  /\ String.eqb (exn_class Stub.search_down) "ToolError" = false.
Proof. repeat split. Qed.

(** C10: during the first successful refresh, after line 105 and before
    line 106, [last_result] is set and [last_updated] is still [None]. *)
Lemma first_refresh_sets_result_before_timestamp :
  App.cache
    (Threads.shared
       (Threads.run Stub.externals [0; 0; 0]
          (Stub.started [Stub.post_refresh])))
  = (Some "# Report A", None).
Proof. reflexivity. Qed.

(** * Further properties of the handler *)

Section IndexMore.

Variable E : Externals.

Implicit Types (s : App.state E) (e : exn) (req : App.request).

(** [index] in full, by the condition of line 115, the cache and the way
    [kickoff] ends. *)
Lemma index_eq req s :
  App.index E req s =
  if App.is_POST (App.method req) && App.refresh_in_form req then
    match crew_kickoff E (App.world s) with
    | (Return result, w') =>
        (Return (App.ReportPage (markdown_of_str E (str_CrewOutput E result))
                                (Some (now_strftime E w'))),
         App.State (Some (str_CrewOutput E result)) (Some (now_strftime E w'))
                   w' (S (App.kickoff_calls s)))
    | (Raise e, w') =>
        (if exn_is_Exception e
         then Return (App.ErrorPage (exn_str e))
         else Raise e,
         App.State (App.last_result s) (App.last_updated s)
                   w' (S (App.kickoff_calls s)))
    end
  else
    match App.last_result s with
    | Some r =>
        (Return (App.ReportPage (markdown_of_str E r) (App.last_updated s)), s)
    | None =>
        match crew_kickoff E (App.world s) with
        | (Return result, w') =>
            (Return (App.ReportPage (markdown_of_str E (str_CrewOutput E result))
                                    (Some (now_strftime E w'))),
             App.State (Some (str_CrewOutput E result)) (Some (now_strftime E w'))
                       w' (S (App.kickoff_calls s)))
        | (Raise e, w') =>
            (Raise e,
             App.State None (App.last_updated s) w' (S (App.kickoff_calls s)))
        end
    end.
Proof.
  destruct (App.is_POST (App.method req) && App.refresh_in_form req) eqn:Hc.
  - apply index_refresh. exact Hc.
  - destruct (App.last_result s) as [r |] eqn:Hr.
    + apply index_cached; assumption.
    + apply index_empty; assumption.
Qed.

(** X1: a request runs the pipeline exactly once when it is a POST carrying
    [refresh] or when the cache is empty, and not at all otherwise. *)
Theorem index_runs_pipeline_at_most_once req s :
  App.kickoff_calls (snd (App.index E req s))
  = App.kickoff_calls s + (if Serve.runs_pipeline E req s then 1 else 0).
Proof.
  rewrite index_eq. unfold Serve.runs_pipeline.
  destruct (App.is_POST (App.method req) && App.refresh_in_form req); simpl.
  - destruct (crew_kickoff E (App.world s)) as [[result | e] w']; simpl; lia.
  - destruct (App.last_result s); simpl; [lia |].
    destruct (crew_kickoff E (App.world s)) as [[result | e] w']; simpl; lia.
Qed.

(** X2: whenever the kickoff made for a request raises, on any path and
    with any exception, the cache is as it was; the exception is rendered
    as the error page only for a POST carrying [refresh] and an instance
    of [Exception], and leaves [index] otherwise. *)
Theorem failed_run_on_any_path req s e w' :
  Serve.runs_pipeline E req s = true ->
  crew_kickoff E (App.world s) = (Raise e, w') ->
  App.cache (snd (App.index E req s)) = App.cache s
  /\ fst (App.index E req s)
     = if App.is_POST (App.method req) && App.refresh_in_form req
          && exn_is_Exception e
       then Return (App.ErrorPage (exn_str e))
       else Raise e.
Proof.
  unfold Serve.runs_pipeline. intros Hrun Hk. rewrite index_eq, Hk.
  destruct (App.is_POST (App.method req) && App.refresh_in_form req); simpl.
  - split; [reflexivity |]. destruct (exn_is_Exception e); reflexivity.
  - simpl in Hrun. destruct (App.last_result s) eqn:Hr; [discriminate |].
    unfold App.cache. simpl. rewrite Hr. split; reflexivity.
Qed.

(** A call running alone: a report page shows the cache as the request
    leaves it: its body is the markdown of [last_result] and its timestamp
    is [last_updated]. *)
Theorem report_page_shows_cache req s result_html updated :
  fst (App.index E req s) = Return (App.ReportPage result_html updated) ->
  exists r,
    App.last_result (snd (App.index E req s)) = Some r
    /\ result_html = markdown_of_str E r
    /\ updated = App.last_updated (snd (App.index E req s)).
Proof.
  rewrite index_eq.
  destruct (App.is_POST (App.method req) && App.refresh_in_form req).
  - destruct (crew_kickoff E (App.world s)) as [[result | e] w']; simpl.
    + intros H. injection H as <- <-. eauto.
    + destruct (exn_is_Exception e); discriminate.
  - destruct (App.last_result s) as [r |] eqn:Hr.
    + simpl. intros H. injection H as <- <-. eauto.
    + destruct (crew_kickoff E (App.world s)) as [[result | e] w']; simpl.
      * intros H. injection H as <- <-. eauto.
      * discriminate.
Qed.

(** X4: after a refresh that succeeded, a request that is not a refresh is
    answered with the very page the refresh was answered with, from the
    cache and without another kickoff. *)
Theorem refresh_then_read_round_trip req_refresh req_read s result w' :
  App.is_POST (App.method req_refresh) && App.refresh_in_form req_refresh = true ->
  App.is_POST (App.method req_read) && App.refresh_in_form req_read = false ->
  crew_kickoff E (App.world s) = (Return result, w') ->
  let s1 := snd (App.index E req_refresh s) in
  App.index E req_read s1
  = (Return (App.ReportPage (markdown_of_str E (str_CrewOutput E result))
                            (Some (now_strftime E w'))),
     s1)
  /\ fst (App.index E req_read s1) = fst (App.index E req_refresh s).
Proof.
  intros Hp Hg Hk. cbv zeta.
  rewrite (index_eq req_refresh s), Hp, Hk. simpl.
  rewrite index_eq, Hg. simpl. split; reflexivity.
Qed.

(** X5: after a refresh that failed with a report in the cache, a request
    that is not a refresh is still answered with that report and its
    timestamp, without another kickoff. *)
Theorem failed_refresh_keeps_report_visible req_refresh req_read s r e w' :
  App.is_POST (App.method req_refresh) && App.refresh_in_form req_refresh = true ->
  App.is_POST (App.method req_read) && App.refresh_in_form req_read = false ->
  App.last_result s = Some r ->
  crew_kickoff E (App.world s) = (Raise e, w') ->
  let s1 := snd (App.index E req_refresh s) in
  App.index E req_read s1
  = (Return (App.ReportPage (markdown_of_str E r) (App.last_updated s)), s1).
Proof.
  intros Hp Hg Hr Hk. cbv zeta.
  rewrite (index_eq req_refresh s), Hp, Hk. simpl.
  rewrite index_eq, Hg. simpl. rewrite Hr. reflexivity.
Qed.

(** One request keeps the two globals both unset or both set. *)
Lemma index_consistent req s :
  Serve.consistent s -> Serve.consistent (snd (App.index E req s)).
Proof.
  unfold Serve.consistent. intros Hs. rewrite index_eq.
  destruct (App.is_POST (App.method req) && App.refresh_in_form req).
  - destruct (crew_kickoff E (App.world s)) as [[result | e] w']; simpl.
    + split; discriminate.
    + exact Hs.
  - destruct (App.last_result s) as [r |] eqn:Hr.
    + simpl. rewrite Hr. exact Hs.
    + destruct (crew_kickoff E (App.world s)) as [[result | e] w']; simpl.
      * split; discriminate.
      * split; [intros _; apply Hs; reflexivity | reflexivity].
Qed.

(** One request leaves a filled cache filled. *)
Lemma index_filled req s :
  is_Some (App.last_result s) ->
  is_Some (App.last_result (snd (App.index E req s))).
Proof.
  intros [r Hr]. rewrite index_eq, Hr.
  destruct (App.is_POST (App.method req) && App.refresh_in_form req); simpl.
  - destruct (crew_kickoff E (App.world s)) as [[result | e] w']; simpl; eauto.
  - rewrite Hr. eauto.
Qed.

Lemma serve_cons req reqs s :
  Serve.serve E (req :: reqs) s
  = (fst (App.index E req s) :: fst (Serve.serve E reqs (snd (App.index E req s))),
     snd (Serve.serve E reqs (snd (App.index E req s)))).
Proof.
  simpl. destruct (App.index E req s) as [o s']. simpl.
  destruct (Serve.serve E reqs s') as [os s'']. reflexivity.
Qed.

(** X6: over any sequence of requests handled one after another, the two
    globals stay both unset or both set. *)
Theorem serve_keeps_cache_consistent (reqs : list App.request) s :
  Serve.consistent s -> Serve.consistent (snd (Serve.serve E reqs s)).
Proof.
  revert s. induction reqs as [| req reqs IH]; intros s Hs; [exact Hs |].
  rewrite serve_cons. simpl. apply IH, index_consistent, Hs.
Qed.

(** X7: once the cache holds a report it holds one after every later
    request, whatever the requests and however the refreshes among them
    end; and every request that is not a refresh is answered with a report
    page. *)
Theorem filled_cache_always_serves (reqs : list App.request) s :
  is_Some (App.last_result s) ->
  is_Some (App.last_result (snd (Serve.serve E reqs s)))
  /\ Forall2
       (fun req o =>
          App.is_POST (App.method req) && App.refresh_in_form req = false ->
          Serve.is_report o = true)
       reqs (fst (Serve.serve E reqs s)).
Proof.
  revert s. induction reqs as [| req reqs IH]; intros s Hs.
  - split; [exact Hs | constructor].
  - rewrite serve_cons. simpl.
    destruct (IH _ (index_filled req s Hs)) as [IH1 IH2].
    split; [exact IH1 |]. constructor; [| exact IH2].
    intros Hc. destruct Hs as [r Hr]. rewrite index_eq, Hc, Hr. reflexivity.
Qed.

End IndexMore.

(** * Further properties of the request threads *)

Section InterleavingFacts.

Variable E : Externals.

Implicit Types (c : Threads.config E) (p : Threads.pc E).

(** Every statement brings its thread closer to its answer. *)
Lemma step_pc_steps_left p (s : App.state E) p' s' :
  Threads.step_pc E p s = Some (p', s') ->
  Interleaving.steps_left p' < Interleaving.steps_left p.
Proof.
  intros Hs. destruct p; simpl in Hs.
  - destruct (App.is_POST (App.method req) && App.refresh_in_form req).
    + injection Hs as <- <-. simpl. lia.
    + destruct (App.last_result s); injection Hs as <- <-; simpl; lia.
  - destruct (App.investment_crew_kickoff E s) as [[r | e] s1];
      injection Hs as <- <-; simpl; lia.
  - injection Hs as <- <-. simpl. lia.
  - injection Hs as <- <-. simpl. lia.
  - injection Hs as <- <-. simpl. lia.
  - injection Hs as <- <-. simpl. lia.
  - destruct result_str; injection Hs as <- <-; simpl; lia.
  - injection Hs as <- <-. simpl. lia.
  - discriminate.
Qed.

(** Only a finished thread has no next statement. *)
Lemma step_pc_None p (s : App.state E) :
  Threads.step_pc E p s = None -> Interleaving.steps_left p = 0.
Proof.
  destruct p; simpl; try discriminate; try reflexivity.
  - destruct (App.is_POST (App.method req) && App.refresh_in_form req);
      [discriminate |]. destruct (App.last_result s); discriminate.
  - destruct (App.investment_crew_kickoff E s) as [[r | e] s1]; discriminate.
  - destruct result_str; discriminate.
Qed.

(** What one scheduled step does to the thread [i]: its own step brings it
    closer to its answer (or it has answered), another thread's step
    leaves it where it is. *)
Lemma step_or_stay_thread c i j p :
  Threads.threads c !! i = Some p ->
  exists p',
    Threads.threads (Threads.step_or_stay E c j) !! i = Some p'
    /\ Interleaving.steps_left p'
       <= Interleaving.steps_left p - (if Nat.eq_dec j i then 1 else 0).
Proof.
  intros Hp. unfold Threads.step_or_stay.
  destruct (Threads.step E j c) as [c' |] eqn:Hs.
  - destruct (step_inv E j c c' Hs) as (q & q' & s' & Hq & Hsq & ->). simpl.
    destruct (Nat.eq_dec j i) as [-> | Hne].
    + rewrite Hp in Hq. injection Hq as <-.
      exists q'. split.
      * apply list_lookup_insert_eq. exact (lookup_lt_Some _ _ _ Hp).
      * pose proof (step_pc_steps_left p _ q' s' Hsq). lia.
    + exists p. split; [| lia].
      rewrite list_lookup_insert_ne by exact Hne. exact Hp.
  - exists p. split; [exact Hp |].
    destruct (Nat.eq_dec j i) as [-> | Hne]; [| lia].
    unfold Threads.step in Hs. rewrite Hp in Hs.
    destruct (Threads.step_pc E p (Threads.shared c)) as [[p' s'] |] eqn:Hsp;
      [discriminate |].
    rewrite (step_pc_None p _ Hsp). lia.
Qed.

Lemma run_thread sched : forall c i p,
  Threads.threads c !! i = Some p ->
  exists p',
    Threads.threads (Threads.run E sched c) !! i = Some p'
    /\ Interleaving.steps_left p'
       <= Interleaving.steps_left p - count_occ Nat.eq_dec sched i.
Proof.
  induction sched as [| j sched IH]; intros c i p Hp.
  - exists p. split; [exact Hp | simpl; lia].
  - destruct (step_or_stay_thread c i j p Hp) as (p1 & Hp1 & Hle1).
    destruct (IH (Threads.step_or_stay E c j) i p1 Hp1) as (p' & Hp' & Hle).
    exists p'. split; [exact Hp' |].
    simpl count_occ. destruct (Nat.eq_dec j i); lia.
Qed.

Lemma steps_left_le p : Interleaving.steps_left p <= 7.
Proof. destruct p; simpl; lia. Qed.

(** X8: no request waits for another.  Whatever the other threads do and
    wherever a thread stands, once the schedule has run it seven times it
    has answered its request. *)
Theorem request_answered_within_seven_own_steps
  (sched : list nat) c (i : nat) p :
  Threads.threads c !! i = Some p ->
  7 <= count_occ Nat.eq_dec sched i ->
  exists o, Threads.answer (Threads.run E sched c) i = Some o.
Proof.
  intros Hp Hn.
  destruct (run_thread sched c i p Hp) as (p' & Hp' & Hle).
  pose proof (steps_left_le p).
  unfold Threads.answer. rewrite Hp'.
  destruct p'; simpl in Hle; try lia. eauto.
Qed.

Lemma step_markdown_inv i c c' :
  Threads.step E i c = Some c' ->
  Interleaving.markdown_inv c -> Interleaving.markdown_inv c'.
Proof.
  intros H (I1 & I2).
  destruct (step_inv E i c c' H) as (p & p' & s' & Hp & Hs & ->).
  unfold Interleaving.markdown_inv, Threads.count in *. simpl.
  pose proof (count_filter_insert E Interleaving.expects_result _ i p p' Hp) as H1.
  pose proof (count_filter_insert E Interleaving.is_markdown_None _ i p p' Hp) as H2.
  pose proof (count_filter_lookup E Interleaving.expects_result _ i p Hp) as H3.
  pose proof (count_filter_lookup E Interleaving.is_markdown_None _ i p Hp) as H4.
  destruct p; simpl in Hs.
  - destruct (App.is_POST (App.method req) && App.refresh_in_form req).
    + injection Hs as <- <-. simpl in *.
      split; [intros; apply I1; lia | lia].
    + destruct (App.last_result (Threads.shared c)) eqn:Hr;
        injection Hs as <- <-; simpl in *.
      * rewrite Hr. split; [intros; discriminate | lia].
      * rewrite Hr. split; [intros; apply I1; lia | lia].
  - unfold App.investment_crew_kickoff in Hs.
    destruct (crew_kickoff E (App.world (Threads.shared c))) as [[r | e] w'];
      injection Hs as <- <-; simpl in *;
      (split; [intros; apply I1; lia | lia]).
  - injection Hs as <- <-. simpl in *.
    split; [intros; discriminate | lia].
  - injection Hs as <- <-. simpl in *.
    split; [intros; apply I1; lia | lia].
  - specialize (H3 eq_refl). specialize (I1 H3).
    destruct (App.last_result (Threads.shared c)) eqn:Hr; [| congruence].
    injection Hs as <- <-. simpl in *. rewrite Hr.
    split; [intros; discriminate | lia].
  - specialize (H3 eq_refl). specialize (I1 H3).
    destruct (App.last_result (Threads.shared c)) eqn:Hr; [| congruence].
    injection Hs as <- <-. simpl in *. rewrite Hr.
    split; [intros; discriminate | lia].
  - destruct result_str.
    + injection Hs as <- <-. simpl in *.
      split; [intros; apply I1; lia | lia].
    + specialize (H4 eq_refl). lia.
  - injection Hs as <- <-. simpl in *.
    split; [intros; apply I1; lia | lia].
  - discriminate.
Qed.

Lemma init_config_markdown_inv (w : World E) (reqs : list App.request) :
  Interleaving.markdown_inv (Threads.init_config w reqs).
Proof.
  unfold Interleaving.markdown_inv, Threads.count. simpl.
  assert (forall f : Threads.pc E -> bool,
             (forall req, f (Threads.AtStart req) = false) ->
             length (List.filter f (map (Threads.AtStart (E:=E)) reqs)) = 0) as H0.
  { intros f Hf. induction reqs as [| r reqs IH]; simpl; [reflexivity |].
    rewrite Hf. exact IH. }
  rewrite !H0 by reflexivity. split; [lia | reflexivity].
Qed.

(** X9: under every interleaving of the requests, no thread ever stands
    before [markdown2.markdown] with [None] for [result_str]: the text
    handed to it is always a [str]. *)
Theorem markdown_never_gets_None
  (w : World E) (reqs : list App.request) (sched : list nat) :
  Threads.count Interleaving.is_markdown_None
    (Threads.run E sched (Threads.init_config w reqs)) = 0.
Proof.
  apply (run_invariant E Interleaving.markdown_inv step_markdown_inv sched _
           (init_config_markdown_inv w reqs)).
Qed.

(** A thread run alone, wherever it stands in the list of threads. *)
Lemma step_middle (pre post : list (Threads.pc E)) p (s : App.state E) :
  Threads.step E (length pre) (Threads.Config s (pre ++ p :: post))
  = match Threads.step_pc E p s with
    | Some (p', s') => Some (Threads.Config s' (pre ++ p' :: post))
    | None => None
    end.
Proof.
  unfold Threads.step. simpl.
  rewrite (list_lookup_middle pre post p (length pre) eq_refl).
  destruct (Threads.step_pc E p s) as [[p' s'] |]; [| reflexivity].
  rewrite (insert_app_r_alt pre (p :: post) (length pre) p' (Nat.le_refl _)).
  rewrite Nat.sub_diag. reflexivity.
Qed.

Lemma run_middle n : forall (pre post : list (Threads.pc E)) p (s : App.state E),
  Threads.run E (repeat (length pre) n) (Threads.Config s (pre ++ p :: post))
  = Threads.Config (snd (Interleaving.iter_pc E n p s))
                   (pre ++ fst (Interleaving.iter_pc E n p s) :: post).
Proof.
  induction n as [| n IH]; intros pre post p s; [reflexivity |].
  simpl repeat. unfold Threads.run. simpl fold_left.
  unfold Threads.step_or_stay at 2. rewrite step_middle. simpl.
  destruct (Threads.step_pc E p s) as [[p' s'] |] eqn:Hs.
  - apply IH.
  - fold (Threads.run E (repeat (length pre) n)
            (Threads.Config s (pre ++ p :: post))).
    rewrite IH.
    assert (Hn : Interleaving.iter_pc E n p s = (p, s))
      by (destruct n; simpl; [reflexivity | rewrite Hs; reflexivity]).
    rewrite Hn. reflexivity.
Qed.

(** Seven statements of a thread from its start are one call of [index]. *)
Lemma iter_pc_is_index (req : App.request) (s : App.state E) :
  Interleaving.iter_pc E 7 (Threads.AtStart req) s
  = (Threads.Finished (fst (App.index E req s)), snd (App.index E req s)).
Proof.
  pose proof (single_thread_is_index E req s) as H.
  assert (H' : Threads.run E (repeat 0 7) (Threads.Config s [Threads.AtStart req])
               = Threads.Config
                   (snd (Interleaving.iter_pc E 7 (Threads.AtStart req) s))
                   [fst (Interleaving.iter_pc E 7 (Threads.AtStart req) s)])
    by exact (run_middle 7 [] [] (Threads.AtStart req) s).
  rewrite H in H'.
  remember (Interleaving.iter_pc E 7 (Threads.AtStart req) s) as r eqn:Hr.
  clear Hr H. destruct r as [p' s']. simpl fst in H'. simpl snd in H'.
  injection H' as H1 H2. rewrite H1, H2. reflexivity.
Qed.

Lemma run_app (a b : list nat) c :
  Threads.run E (a ++ b) c = Threads.run E b (Threads.run E a c).
Proof. unfold Threads.run. apply fold_left_app. Qed.

Lemma serial_schedule_serve (reqs : list App.request) :
  forall (done : list (Threads.pc E)) (s : App.state E),
  Threads.run E (Interleaving.serial_schedule (length done) (length reqs))
    (Threads.Config s (done ++ map Threads.AtStart reqs))
  = Threads.Config (snd (Serve.serve E reqs s))
      (done ++ map Threads.Finished (fst (Serve.serve E reqs s))).
Proof.
  induction reqs as [| req reqs IH]; intros done s; [reflexivity |].
  change (Interleaving.serial_schedule (length done) (length (req :: reqs)))
    with (repeat (length done) 7
          ++ Interleaving.serial_schedule (S (length done)) (length reqs))%list.
  rewrite run_app, serve_cons. simpl map.
  rewrite (run_middle 7 done (map Threads.AtStart reqs) (Threads.AtStart req) s).
  rewrite iter_pc_is_index. cbn [fst snd map].
  specialize (IH (done ++ [Threads.Finished (fst (App.index E req s))])%list
                 (snd (App.index E req s))).
  rewrite length_app in IH. simpl length in IH. rewrite Nat.add_1_r in IH.
  rewrite <- !app_assoc in IH. simpl app in IH. exact IH.
Qed.

(** X10: requests handled one at a time, each thread run to its answer
    before the next begins, end in the state and with the answers of
    successive calls of [index]. *)
Theorem serial_threads_are_successive_index_calls
  (reqs : list App.request) (s : App.state E) :
  Threads.run E (Interleaving.serial_schedule 0 (length reqs))
    (Threads.Config s (map Threads.AtStart reqs))
  = Threads.Config (snd (Serve.serve E reqs s))
      (map Threads.Finished (fst (Serve.serve E reqs s))).
Proof. exact (serial_schedule_serve reqs [] s). Qed.

End InterleavingFacts.

(** ** Instances of the further properties *)

(** A GET on an empty cache whose run raises. *)
Lemma failed_run_on_get_path_at_stub :
  App.cache (snd (App.index Stub.externals Stub.get_ (Stub.fresh 2)))
  = App.cache (Stub.fresh 2)
  /\ fst (App.index Stub.externals Stub.get_ (Stub.fresh 2)) = Raise Stub.boom.
Proof.
  exact (failed_run_on_any_path Stub.externals Stub.get_ (Stub.fresh 2)
           Stub.boom 3 eq_refl eq_refl).
Defined.

(** The page of a GET on a filled cache. *)
Lemma report_page_shows_cache_at_stub :
  exists r,
    App.last_result (snd (App.index Stub.externals Stub.get_ (Stub.filled 1)))
    = Some r
    /\ "<html># Report A</html>" = markdown_of_str Stub.externals r
    /\ Some "2025-01-01 09:00:00"
       = App.last_updated (snd (App.index Stub.externals Stub.get_ (Stub.filled 1))).
Proof.
  exact (report_page_shows_cache Stub.externals Stub.get_ (Stub.filled 1)
           "<html># Report A</html>" (Some "2025-01-01 09:00:00") eq_refl).
Defined.

(** A refresh that replaces report A by report B, then a GET. *)
Lemma refresh_then_read_at_stub :
  App.index Stub.externals Stub.get_
    (snd (App.index Stub.externals Stub.post_refresh (Stub.filled 1)))
  = (Return (App.ReportPage "<html># Report B</html>" (Some "2025-01-01 10:00:00")),
     snd (App.index Stub.externals Stub.post_refresh (Stub.filled 1)))
  /\ fst (App.index Stub.externals Stub.get_
            (snd (App.index Stub.externals Stub.post_refresh (Stub.filled 1))))
     = fst (App.index Stub.externals Stub.post_refresh (Stub.filled 1)).
Proof.
  exact (refresh_then_read_round_trip Stub.externals Stub.post_refresh Stub.get_
           (Stub.filled 1) "# Report B" 2 eq_refl eq_refl eq_refl).
Defined.

(** A refresh that fails over report A, then a GET. *)
Lemma failed_refresh_then_read_at_stub :
  App.index Stub.externals Stub.get_
    (snd (App.index Stub.externals Stub.post_refresh (Stub.filled 2)))
  = (Return (App.ReportPage "<html># Report A</html>" (Some "2025-01-01 09:00:00")),
     snd (App.index Stub.externals Stub.post_refresh (Stub.filled 2))).
Proof.
  exact (failed_refresh_keeps_report_visible Stub.externals Stub.post_refresh
           Stub.get_ (Stub.filled 2) "# Report A" Stub.boom 3
           eq_refl eq_refl eq_refl eq_refl).
Defined.

(** From start-up: a GET, two refreshes that succeed or not, a GET. *)
Lemma serve_keeps_cache_consistent_at_stub :
  Serve.consistent
    (snd (Serve.serve Stub.externals
            [Stub.get_; Stub.post_refresh; Stub.post_refresh; Stub.get_]
            (Stub.fresh 1))).
Proof.
  exact (serve_keeps_cache_consistent Stub.externals
           [Stub.get_; Stub.post_refresh; Stub.post_refresh; Stub.get_]
           (Stub.fresh 1)
           (conj (fun _ => eq_refl) (fun _ => eq_refl))).
Defined.

(** A filled cache, then a refresh that fails, one that is interrupted and
    two requests that are no refresh. *)
Lemma filled_cache_always_serves_at_stub :
  is_Some
    (App.last_result
       (snd (Serve.serve Stub.externals
               [Stub.post_refresh; Stub.get_; Stub.post_refresh;
                App.Request App.POST []]
               (Stub.filled 2)))).
Proof.
  exact (proj1 (filled_cache_always_serves Stub.externals
                  [Stub.post_refresh; Stub.get_; Stub.post_refresh;
                   App.Request App.POST []]
                  (Stub.filled 2)
                  (ex_intro _ "# Report A" eq_refl))).
Defined.

(** A refresh interleaved with a GET and with a second refresh. *)
Lemma refresh_answered_among_others_at_stub :
  exists o,
    Threads.answer
      (Threads.run Stub.externals [0; 1; 0; 2; 0; 1; 0; 2; 0; 0; 1; 0]
         (Stub.started [Stub.post_refresh; Stub.get_; Stub.post_refresh]))
      0
    = Some o.
Proof.
  exact (request_answered_within_seven_own_steps Stub.externals
           [0; 1; 0; 2; 0; 1; 0; 2; 0; 0; 1; 0]
           (Stub.started [Stub.post_refresh; Stub.get_; Stub.post_refresh])
           0 (Threads.AtStart Stub.post_refresh) eq_refl (le_n 7)).
Defined.

Example serial_schedule_of_two :
  Interleaving.serial_schedule 0 2 = [0; 0; 0; 0; 0; 0; 0; 1; 1; 1; 1; 1; 1; 1].
Proof. reflexivity. Qed.

Example serve_at_stub :
  fst (Serve.serve Stub.externals
         [Stub.get_; Stub.post_refresh; Stub.post_refresh; Stub.get_]
         (Stub.fresh 0))
  = [Return (App.ReportPage "<html># Report A</html>" (Some "2025-01-01 09:00:00"));
     Return (App.ReportPage "<html># Report B</html>" (Some "2025-01-01 10:00:00"));
     Return (App.ErrorPage "model timed out");
     Return (App.ReportPage "<html># Report B</html>" (Some "2025-01-01 10:00:00"))].
Proof. reflexivity. Qed.

(** * A request among concurrent requests *)

Section Uninterleaved.

Variable E : Externals.

Implicit Types (pre post : list (Threads.pc E)) (s : App.state E).

(** A thread run from its start for its seven statements with no statement
    of another thread in between, wherever it stands among the other
    threads and whatever they are in the middle of, is one call of
    [index]. *)
Lemma uninterleaved_request_is_index pre post (req : App.request) s :
  Threads.run E (repeat (length pre) 7)
    (Threads.Config s (pre ++ Threads.AtStart req :: post)%list)
  = Threads.Config (snd (App.index E req s))
      (pre ++ Threads.Finished (fst (App.index E req s)) :: post)%list.
Proof.
  rewrite (run_middle E 7 pre post (Threads.AtStart req) s).
  rewrite iter_pc_is_index. reflexivity.
Qed.

Lemma answer_middle pre post (o : outcome App.response) s :
  Threads.answer (Threads.Config s (pre ++ Threads.Finished o :: post)%list)
                 (length pre)
  = Some o.
Proof.
  unfold Threads.answer. simpl.
  rewrite (list_lookup_middle pre post (Threads.Finished o) (length pre) eq_refl).
  reflexivity.
Qed.


(** C8, as the code has it: a kickoff that returns [result], followed by
    lines 105 to 107 with no statement of another request in between
    (other requests may be in progress): the stored text is [str(result)],
    the stored timestamp is the clock read once the kickoff has returned,
    and the value returned, which becomes [result_str], is the stored
    text; the thread's four statements and the call of
    [generate_recommendations] end in the same state. *)
Theorem uninterleaved_run_stores_and_returns_result
  pre post (in_try : bool) s (result : CrewOutput E) (w' : World E) :
  crew_kickoff E (App.world s) = (Return result, w') ->
  exists s',
    App.generate_recommendations E s = (Return (App.last_result s'), s')
    /\ App.last_result s' = Some (str_CrewOutput E result)
    /\ App.last_updated s' = Some (now_strftime E w')
    /\ App.world s' = w'
    /\ Threads.run E (repeat (length pre) 4)
         (Threads.Config s (pre ++ Threads.InKickoff in_try :: post)%list)
       = Threads.Config s'
           (pre ++ Threads.AtMarkdown (App.last_result s') :: post)%list.
Proof.
  intros Hk.
  exists (App.State (Some (str_CrewOutput E result)) (Some (now_strftime E w'))
                    w' (S (App.kickoff_calls s))).
  rewrite generate_recommendations_eq, Hk.
  repeat (split; [reflexivity |]).
  rewrite (run_middle E 4 pre post (Threads.InKickoff in_try) s).
  unfold Interleaving.iter_pc, Threads.step_pc, App.investment_crew_kickoff.
  rewrite Hk. reflexivity.
Qed.

(** X3: when the statements of a request run with no statement of another
    request in between and it is answered with the report page, the page
    shows the cache as the request leaves it: its body is the markdown of
    [last_result] and its timestamp is [last_updated]. *)
Theorem uninterleaved_report_page_shows_cache
  pre post (req : App.request) s (result_html : string) (updated : option string) :
  Threads.answer
    (Threads.run E (repeat (length pre) 7)
       (Threads.Config s (pre ++ Threads.AtStart req :: post)%list))
    (length pre)
  = Some (Return (App.ReportPage result_html updated)) ->
  exists r,
    App.last_result
      (Threads.shared
         (Threads.run E (repeat (length pre) 7)
            (Threads.Config s (pre ++ Threads.AtStart req :: post)%list)))
    = Some r
    /\ result_html = markdown_of_str E r
    /\ updated
       = App.last_updated
           (Threads.shared
              (Threads.run E (repeat (length pre) 7)
                 (Threads.Config s (pre ++ Threads.AtStart req :: post)%list))).
Proof.
  rewrite uninterleaved_request_is_index, answer_middle. simpl Threads.shared.
  intros H. injection H as H.
  exact (report_page_shows_cache E req s result_html updated H).
Qed.

End Uninterleaved.


(** The second crew run, from its kickoff to its return, while another
    request waits at its start. *)
Lemma uninterleaved_run_at_stub :
  exists s',
    App.generate_recommendations Stub.externals (Stub.filled 1)
    = (Return (App.last_result s'), s')
    /\ App.last_result s' = Some "# Report B"
    /\ App.last_updated s' = Some "2025-01-01 10:00:00"
    /\ App.world s' = 2
    /\ Threads.run Stub.externals (repeat 1 4)
         (Threads.Config (Stub.filled 1)
            [Threads.AtStart Stub.get_; Threads.InKickoff true])
       = Threads.Config s'
           [Threads.AtStart Stub.get_; Threads.AtMarkdown (App.last_result s')].
Proof.
  exact (uninterleaved_run_stores_and_returns_result Stub.externals
           [Threads.AtStart Stub.get_] [] true (Stub.filled 1) "# Report B" 2
           eq_refl).
Defined.

(** The page of a refresh that runs alone beside a request not yet
    begun. *)
Lemma uninterleaved_report_page_at_stub :
  exists r,
    App.last_result
      (Threads.shared
         (Threads.run Stub.externals (repeat 0 7)
            (Threads.Config (Stub.filled 1)
               [Threads.AtStart Stub.post_refresh; Threads.AtStart Stub.get_])))
    = Some r
    /\ "<html># Report B</html>" = markdown_of_str Stub.externals r
    /\ Some "2025-01-01 10:00:00"
       = App.last_updated
           (Threads.shared
              (Threads.run Stub.externals (repeat 0 7)
                 (Threads.Config (Stub.filled 1)
                    [Threads.AtStart Stub.post_refresh; Threads.AtStart Stub.get_]))).
Proof.
  exact (uninterleaved_report_page_shows_cache Stub.externals
           [] [Threads.AtStart Stub.get_] Stub.post_refresh (Stub.filled 1)
           "<html># Report B</html>" (Some "2025-01-01 10:00:00") eq_refl).
Defined.


(** C8: two refreshes; the kickoff of the first returns report A, the
    second stores report B between the first one's lines 105 and 107: the
    first call returns report B, and the text left in the cache is not
    the [str] of its result. *)
Lemma interleaved_refresh_returns_other_run :
  Threads.threads
    (Threads.run Stub.externals [0; 0]
       (Stub.started [Stub.post_refresh; Stub.post_refresh])) !! 0
  = Some (Threads.AtStoreResult Stub.externals "# Report A")
  /\ Threads.threads
       (Threads.run Stub.externals [0; 0; 0; 1; 1; 1; 1; 0; 0]
          (Stub.started [Stub.post_refresh; Stub.post_refresh])) !! 0
     = Some (Threads.AtMarkdown (Some "# Report B"))
  /\ App.cache
       (Threads.shared
          (Threads.run Stub.externals [0; 0; 0; 1; 1; 1; 1; 0; 0]
             (Stub.started [Stub.post_refresh; Stub.post_refresh])))
     = (Some "# Report B", Some "2025-01-01 10:00:00").
Proof. repeat split. Qed.
